(** * Doc-Chat: the session orchestration of [doc_chat.py]

    A shallow embedding of the Streamlit script [src/doc_chat.py]: the
    session state, the three provider helpers, the "Process Documents" and
    "Clear All Documents" handlers and the chat-input handler, followed by
    the properties of the session life cycle.

    The hosted service is outside the program.  It is a parameter of the
    development: a record of endpoint functions that answer a request from
    the whole history of earlier calls, either with a value or by raising.
    Every call the script makes is logged with its outcome, so that "the
    provider was (not) invoked" is a statement about the log.  The
    operating system is a parameter too, for the two places where it can
    refuse what the script asks outside any [try]: the creation of a
    transient file and the assignment to [os.environ].  An exception
    nothing catches ends the run where it is raised; the session keeps
    what was assigned before. *)

From stdpp Require Import base strings list gmap pretty.

Set Default Proof Using "Type".

(** ** Data *)

(** A Python call either returns a value or raises an exception whose
    text is [e] (the script only ever formats [str(e)]). *)
Inductive result (A : Type) : Type :=
  | Ok (a : A)
  | Raise (e : string).
Arguments Ok {A} a.
Arguments Raise {A} e.

(** How a handler ends: it ran to its last line, or an exception that no
    [try] of the script catches left it. *)
Inductive Status :=
  | Completed
  | Uncaught (e : string).

(** How a pass over the script ends: at its last line, in [st.rerun()],
    or in an uncaught exception. *)
Inductive Ending :=
  | Finished
  | Rerun
  | Aborted (e : string).

(** An entry of [st.session_state.messages]: [{"role": .., "content": ..}]. *)
Record Message := { role : string; content : string }.

(** What [st.file_uploader] hands over for one document. *)
Record UploadedFile := { name : string; getvalue : list Byte.byte }.

(** A path made by [NamedTemporaryFile]: a generated stem and the suffix
    that was asked for. *)
Abbreviation TmpPath := (nat * string)%type.

(** The object returned by [client.vector_stores.files.create].  It is an
    ordinary object, hence truthy whatever its fields hold. *)
Record VectorStoreFile := { vsf_id : string; vsf_status : string }.

(** The [tools] entry of a chat request. *)
Record Tool := { type : string; vector_store_ids : list string }.

(** The provider calls of the script, each with its outcome. *)
Inductive Call :=
  | FilesCreate (file : TmpPath * list Byte.byte) (purpose : string)
                (r : result string)
  | VectorStoresCreate (vs_name : string) (r : result string)
  | VectorStoresFilesCreate (vector_store_id file_id : string)
                            (r : result VectorStoreFile)
  | ResponsesCreate (model : string) (input : list Message)
                    (tools : list Tool) (r : result string).

(** What the script does to the disk, in order. *)
Inductive DiskOp :=
  | Created (path : TmpPath)
  | Written (path : TmpPath) (bytes : list Byte.byte)
  | Removed (path : TmpPath).

(** [client = OpenAI(api_key=api_key)]. *)
Record Client := { api_key : string }.

(** The world outside the script: the four endpoints (what they return is
    [response.id], [vector_store.id], the attach result and
    [response.output_text]) and [uuid.uuid4()].  Each one may depend on
    every call made before. *)
Record Provider := {
  files_create : Client -> list Call -> TmpPath * list Byte.byte -> string ->
                 result string;
  vector_stores_create : Client -> list Call -> string -> result string;
  vector_stores_files_create : Client -> list Call -> string -> string ->
                               result VectorStoreFile;
  responses_create : Client -> list Call -> string -> list Message ->
                     list Tool -> result string;
  uuid4 : list Call -> string;
}.

(** The operating system, where it can refuse the script.
    [mkstemp_error suffix] is the text of the exception
    [NamedTemporaryFile(delete=False, suffix=suffix)] raises, if it raises
    (a file name too long, a [/] or a NUL in the suffix);
    [putenv_error key value] is the text of the exception
    [os.environ[key] = value] raises, if it raises (a NUL in the value).
    The disk is taken to have room: writing to a file just created and
    opening it succeed. *)
Record OS := {
  mkstemp_error : string -> option string;
  putenv_error : string -> string -> option string;
}.

(** What the script puts on the page.  Only the elements the handlers emit
    are kept; the static furniture (title, headers, captions, spinners) is
    left out.  [StException] is what Streamlit draws for an exception
    that ended the run. *)
Inductive Element :=
  | StError (body : string)
  | StSuccess (body : string)
  | StInfo (body : string)
  | StWarning (body : string)
  | StWrite (body : string)
  | StSubheader (body : string)
  | StException (body : string)
  | ChatMessage (who : string) (inner : Element).

(** [st.session_state]. *)
Record SessionState := {
  messages : list Message;
  vector_store_id : option string;
  file_ids : list string;
}.

(** The state a run of the script works on: the session, the process
    environment, the transient files on disk and what was done to the
    disk, the log of provider calls and the page. *)
Record World := {
  session_state : SessionState;
  environ : gmap string string;
  files : gmap TmpPath (list Byte.byte);
  disk_log : list DiskOp;
  calls : list Call;
  screen : list Element;
}.

(** The widget values of one run of the script. *)
Record Widgets := {
  api_key_input : string;
  uploaded_files : list UploadedFile;
  process_clicked : bool;
  clear_clicked : bool;
  chat_input : option string;
}.

(** Lines 11-18: a session starts with an empty transcript, no vector
    store and no file identifiers. *)
Definition new_session : SessionState :=
  {| messages := []; vector_store_id := None; file_ids := [] |}.

Definition new_world : World :=
  {| session_state := new_session; environ := ∅; files := ∅;
     disk_log := []; calls := []; screen := [] |}.

(** ** Assignments *)

Definition set_session (f : SessionState -> SessionState) (w : World) : World :=
  {| session_state := f (session_state w); environ := environ w;
     files := files w; disk_log := disk_log w;
     calls := calls w; screen := screen w |}.

Definition set_environ (key value : string) (w : World) : World :=
  {| session_state := session_state w;
     environ := <[key := value]> (environ w);
     files := files w; disk_log := disk_log w;
     calls := calls w; screen := screen w |}.

(** A provider call is recorded after the calls made so far. *)
Definition log (c : Call) (w : World) : World :=
  {| session_state := session_state w; environ := environ w;
     files := files w; disk_log := disk_log w;
     calls := calls w ++ [c]; screen := screen w |}.

Definition show (e : Element) (w : World) : World :=
  {| session_state := session_state w; environ := environ w;
     files := files w; disk_log := disk_log w;
     calls := calls w; screen := screen w ++ [e] |}.

(** A run draws the page afresh. *)
Definition blank_page (w : World) : World :=
  {| session_state := session_state w; environ := environ w;
     files := files w; disk_log := disk_log w;
     calls := calls w; screen := [] |}.

Definition set_vector_store_id (v : option string) (s : SessionState) : SessionState :=
  {| messages := messages s; vector_store_id := v; file_ids := file_ids s |}.

Definition set_file_ids (l : list string) (s : SessionState) : SessionState :=
  {| messages := messages s; vector_store_id := vector_store_id s; file_ids := l |}.

Definition set_messages (l : list Message) (s : SessionState) : SessionState :=
  {| messages := l; vector_store_id := vector_store_id s; file_ids := file_ids s |}.

(** ** Python's truth test *)

(** [if x:] for [x] a string or [None]: the branch is taken for a
    non-empty string, and then [x] is that string. *)
Definition truthy (x : option string) : option string :=
  match x with
  | Some s => if decide (s = "") then None else Some s
  | None => None
  end.

(** ** The file system *)

(** The path of a new transient file: its stem is one no existing path
    has. *)
Definition fresh_tmp_path (fs : gmap TmpPath (list Byte.byte))
    (suffix : string) : TmpPath :=
  (fresh (set_map (D:=gset nat) fst (dom fs)), suffix).

(** A new, empty file appears on the disk. *)
Definition create_file (path : TmpPath) (w : World) : World :=
  {| session_state := session_state w; environ := environ w;
     files := <[path := []]> (files w);
     disk_log := disk_log w ++ [Created path];
     calls := calls w; screen := screen w |}.

(** [tmp_file.write(bytes)] on a file just created. *)
Definition write_file (path : TmpPath) (bytes : list Byte.byte) (w : World) : World :=
  {| session_state := session_state w; environ := environ w;
     files := <[path := bytes]> (files w);
     disk_log := disk_log w ++ [Written path bytes];
     calls := calls w; screen := screen w |}.

(** The file leaves the disk. *)
Definition remove_file (path : TmpPath) (w : World) : World :=
  {| session_state := session_state w; environ := environ w;
     files := delete path (files w);
     disk_log := disk_log w ++ [Removed path];
     calls := calls w; screen := screen w |}.

(** [open(path, "rb")]. *)
Definition open_rb (fs : gmap TmpPath (list Byte.byte)) (path : TmpPath) :
    result (list Byte.byte) :=
  match fs !! path with
  | Some bytes => Ok bytes
  | None => Raise "[Errno 2] No such file or directory"
  end.

(** [os.remove(path)] raises when there is no such file. *)
Definition os_remove (path : TmpPath) (w : World) : result World :=
  match files w !! path with
  | Some _ => Ok (remove_file path w)
  | None => Raise "[Errno 2] No such file or directory"
  end.

(** [os.path.exists(path)]. *)
Definition os_path_exists (path : TmpPath) (fs : gmap TmpPath (list Byte.byte)) : bool :=
  bool_decide (is_Some (fs !! path)).

(** ** The script *)

Definition dquote : string := String (Ascii.ascii_of_nat 34) EmptyString.
Definition newline : string := String (Ascii.ascii_of_nat 10) EmptyString.
Definition indent : string := "                            ".

(** Lines 147-150: the system instruction, a triple-quoted literal that
    keeps its line breaks and the indentation of the source. *)
Definition system_instruction : string :=
  "You are a helpful assistant that only answers questions based on the "
  +:+ newline +:+ indent +:+
  "documents provided. If the question cannot be answered using the documents or is outside "
  +:+ newline +:+ indent +:+
  "their scope, respond with " +:+ dquote +:+ "I don't know" +:+ dquote +:+
  " or " +:+ dquote +:+
  "I cannot answer this question based on the "
  +:+ newline +:+ indent +:+
  "documents provided." +:+ dquote +:+
  " Do not use any knowledge outside of the provided documents.".

Definition missing_key_reply : string :=
  "Please enter your OpenAI API key in the sidebar.".
Definition missing_documents_reply : string :=
  "Please upload and process documents first.".

(** Lines 144-153: the [input] of a chat request. *)
Definition chat_request (prompt : string) : list Message :=
  [ {| role := "system"; content := system_instruction |};
    {| role := "user"; content := prompt |} ].

(** Lines 158-161: the [tools] of a chat request. *)
Definition file_search (vector_store_id : string) : list Tool :=
  [ {| type := "file_search"; vector_store_ids := [vector_store_id] |} ].

Section Script.

Variable os : OS.
Variable openai : Provider.

(** Line 35: [NamedTemporaryFile(delete=False, suffix=..)] makes a file
    that did not exist, or raises when the system refuses the name. *)
Definition NamedTemporaryFile (suffix : string) (w : World) :
    result TmpPath * World :=
  match mkstemp_error os suffix with
  | Some e => (Raise e, w)
  | None =>
      let path := fresh_tmp_path (files w) suffix in
      (Ok path, create_file path w)
  end.

(** Lines 34-48.  The file is made and written before the [try]: an
    exception there is raised to the caller.  Everything after is inside
    the [try], and ends in a returned identifier or in [None]. *)
Definition upload_file_to_openai (client : Client) (uploaded_file : UploadedFile)
    (w : World) : result (option string) * World :=
  match NamedTemporaryFile ("_" +:+ name uploaded_file) w with
  | (Raise e, w) => (Raise e, w)
  | (Ok tmp_file_path, w) =>
      let w := write_file tmp_file_path (getvalue uploaded_file) w in
      let except (e : string) (w : World) : result (option string) * World :=
        let w := show (StError ("Error uploading file to OpenAI: " +:+ e)) w in
        let w := if os_path_exists tmp_file_path (files w)
                 then remove_file tmp_file_path w
                 else w in
        (Ok None, w) in
      match open_rb (files w) tmp_file_path with
      | Raise e => except e w
      | Ok file_content =>
          let r := files_create openai client (calls w)
                     (tmp_file_path, file_content) "assistants" in
          let w := log (FilesCreate (tmp_file_path, file_content)
                          "assistants" r) w in
          match r with
          | Raise e => except e w
          | Ok response_id =>
              match os_remove tmp_file_path w with
              | Raise e => except e w
              | Ok w => (Ok (Some response_id), w)
              end
          end
      end
  end.

(** Line 53: [f"knowledge_base_{uuid.uuid4()}"]. *)
Definition collection_name (w : World) : string :=
  "knowledge_base_" +:+ uuid4 openai (calls w).

(** Lines 51-57. *)
Definition create_vector_store (client : Client) (w : World) :
    option string * World :=
  let vs_name := collection_name w in
  let r := vector_stores_create openai client (calls w) vs_name in
  let w := log (VectorStoresCreate vs_name r) w in
  match r with
  | Ok vector_store_id => (Some vector_store_id, w)
  | Raise e => (None, show (StError ("Error creating vector store: " +:+ e)) w)
  end.

(** Lines 60-68. *)
Definition add_file_to_vector_store (client : Client)
    (vector_store_id file_id : string) (w : World) :
    option VectorStoreFile * World :=
  let r := vector_stores_files_create openai client (calls w)
             vector_store_id file_id in
  let w := log (VectorStoresFilesCreate vector_store_id file_id r) w in
  match r with
  | Ok result => (Some result, w)
  | Raise e =>
      (None, show (StError ("Error adding file to vector store: " +:+ e)) w)
  end.

(** Lines 87-95: the body of the loop over the uploaded files.  An
    exception out of [upload_file_to_openai] is not caught here. *)
Definition process_file (client : Client) (vector_store_id : string)
    (w : World) (uploaded_file : UploadedFile) : Status * World :=
  match upload_file_to_openai client uploaded_file w with
  | (Raise e, w) => (Uncaught e, w)
  | (Ok file_id, w) =>
      (Completed,
       match truthy file_id with
       | Some file_id =>
           let w := set_session
                      (fun s => set_file_ids (file_ids s ++ [file_id]) s) w in
           let '(result, w) :=
             add_file_to_vector_store client vector_store_id file_id w in
           match result with
           | Some _ =>
               show (StSuccess ("Added " +:+ name uploaded_file +:+
                                " to knowledge base")) w
           | None =>
               show (StError ("Failed to add " +:+ name uploaded_file +:+
                              " to knowledge base")) w
           end
       | None => w
       end)
  end.

(** Lines 86-95: the loop; it stops at the first exception. *)
Fixpoint process_files (client : Client) (vector_store_id : string)
    (uploaded_files : list UploadedFile) (w : World) : Status * World :=
  match uploaded_files with
  | [] => (Completed, w)
  | uploaded_file :: rest =>
      match process_file client vector_store_id w uploaded_file with
      | (Completed, w) => process_files client vector_store_id rest w
      | (Uncaught e, w) => (Uncaught e, w)
      end
  end.

(** Lines 77-100: what a click on "Process Documents" runs. *)
Definition process_documents (client : Client)
    (uploaded_files : list UploadedFile) (w : World) : Status * World :=
  let '(vector_store_id, w) := create_vector_store client w in
  match truthy vector_store_id with
  | Some vector_store_id =>
      let w := set_session (set_vector_store_id (Some vector_store_id)) w in
      let w := set_session (set_file_ids []) w in
      match process_files client vector_store_id uploaded_files w with
      | (Uncaught e, w) => (Uncaught e, w)
      | (Completed, w) =>
          let w := set_session (set_messages []) w in
          let w := show (StSuccess
                     ("Successfully processed " +:+
                      pretty (length (file_ids (session_state w))) +:+
                      " document(s)")) w in
          (Completed,
           show (StInfo "You can now start chatting with your documents!") w)
      end
  | None => (Completed, w)
  end.

(** Lines 108-111: what a click on "Clear All Documents" runs, up to the
    [st.rerun()] that ends the run. *)
Definition clear_all_documents (w : World) : World :=
  let w := set_session (set_vector_store_id None) w in
  let w := set_session (set_file_ids []) w in
  let w := set_session (set_messages []) w in
  show (StSuccess "All documents cleared") w.

(** Lines 123-173: what a submitted chat prompt runs. *)
Definition ask (client : option Client) (prompt : string) (w : World) : World :=
  let w := set_session
             (fun s => set_messages
                (messages s ++ [{| role := "user"; content := prompt |}]) s) w in
  let w := show (ChatMessage "user" (StWrite prompt)) w in
  match client with
  | None => show (ChatMessage "assistant" (StWrite missing_key_reply)) w
  | Some client =>
      match truthy (vector_store_id (session_state w)) with
      | None =>
          show (ChatMessage "assistant" (StWrite missing_documents_reply)) w
      | Some vsid =>
          let r := responses_create openai client (calls w) "gpt-4o-mini"
                     (chat_request prompt) (file_search vsid) in
          let w := log (ResponsesCreate "gpt-4o-mini"
                          (chat_request prompt) (file_search vsid) r) w in
          match r with
          | Ok assistant_response =>
              let w := show (ChatMessage "assistant"
                               (StWrite assistant_response)) w in
              set_session
                (fun s => set_messages
                   (messages s ++
                    [{| role := "assistant";
                        content := assistant_response |}]) s) w
          | Raise e =>
              show (ChatMessage "assistant" (StError ("Error: " +:+ e))) w
          end
      end
  end.

(** Lines 21-27: with a key typed, the key is copied into [os.environ]
    and the client is made; the copy is outside any [try]. *)
Definition make_client (key : string) (w : World) :
    result (option Client) * World :=
  if decide (key = "")
  then (Ok None, show (StWarning
                   "Please enter your OpenAI API key to continue") w)
  else match putenv_error os "OPENAI_API_KEY" key with
       | Some e => (Raise e, w)
       | None =>
           (Ok (Some {| api_key := key |}),
            set_environ "OPENAI_API_KEY" key w)
       end.

(** Lines 118-120: the transcript is drawn, oldest message first. *)
Definition show_messages (w : World) : World :=
  foldl (fun w message =>
           show (ChatMessage (role message) (StWrite (content message))) w)
        w (messages (session_state w)).

(** Lines 115-173: the chat part of the page. *)
Definition chat (client : option Client) (wd : Widgets) (w : World) : World :=
  let w := show_messages w in
  match truthy (chat_input wd) with
  | Some prompt => ask client prompt w
  | None => w
  end.

(** Lines 70-173: the sidebar and the chat, once [client] is known.  The
    buttons are only looked at where the script reaches them.  An
    uncaught exception ends the pass on the spot and is drawn. *)
Definition page (client : option Client) (wd : Widgets) (w : World) :
    World * Ending :=
  let '(status, w) :=
    match uploaded_files wd, client with
    | _ :: _, Some c =>
        if process_clicked wd
        then process_documents c (uploaded_files wd) w
        else (Completed, w)
    | _, _ => (Completed, w)
    end in
  match status with
  | Uncaught e => (show (StException e) w, Aborted e)
  | Completed =>
      match file_ids (session_state w) with
      | _ :: _ =>
          let w := show (StSubheader "Active Documents") w in
          let w := show (StWrite
                     ("Number of documents: " +:+
                      pretty (length (file_ids (session_state w))))) w in
          if clear_clicked wd
          then (clear_all_documents w, Rerun)
          else (chat client wd w, Finished)
      | [] => (chat client wd w, Finished)
      end
  end.

(** One pass over the script, top to bottom.  The page is drawn afresh;
    an exception at line 23 ends the pass before anything else runs. *)
Definition script (wd : Widgets) (w : World) : World * Ending :=
  let w := blank_page w in
  match make_client (api_key_input wd) w with
  | (Raise e, w) => (show (StException e) w, Aborted e)
  | (Ok client, w) => page client wd w
  end.

(** The widget values of the pass that [st.rerun()] starts: the inputs
    keep their values, no button is pressed, no prompt is pending. *)
Definition rerun_widgets (wd : Widgets) : Widgets :=
  {| api_key_input := api_key_input wd;
     uploaded_files := uploaded_files wd;
     process_clicked := false;
     clear_clicked := false;
     chat_input := None |}.

(** One user action: a pass, and the pass [st.rerun()] asks for. *)
Definition run (wd : Widgets) (w : World) : World :=
  match script wd w with
  | (w, Rerun) => fst (script (rerun_widgets wd) w)
  | (w, _) => w
  end.

(** The states a session can be in: a new one, and what any user action
    makes of a state the session can be in, aborted runs included. *)
Inductive reachable : World -> Prop :=
  | reachable_new : reachable new_world
  | reachable_run wd w : reachable w -> reachable (run wd w).


(** The documents of a batch the loop gets to: those before the first
    one for which no transient file can be made. *)
Fixpoint staged (uploaded_files : list UploadedFile) : list UploadedFile :=
  match uploaded_files with
  | [] => []
  | uploaded_file :: rest =>
      match mkstemp_error os ("_" +:+ name uploaded_file) with
      | None => uploaded_file :: staged rest
      | Some _ => []
      end
  end.

(** How the loop over a batch ends. *)
Fixpoint batch_status (uploaded_files : list UploadedFile) : Status :=
  match uploaded_files with
  | [] => Completed
  | uploaded_file :: rest =>
      match mkstemp_error os ("_" +:+ name uploaded_file) with
      | None => batch_status rest
      | Some e => Uncaught e
      end
  end.

(** The key can be copied into [os.environ]. *)
Definition key_accepted (key : string) : Prop :=
  putenv_error os "OPENAI_API_KEY" key = None.

End Script.

(** ** Reading the call log *)

(** The calls made between two states of one execution. *)
Definition since (w w' : World) : list Call :=
  drop (length (calls w)) (calls w').

(** The documents offered to the file endpoint, in order. *)
Definition upload_attempts (l : list Call) : list (list Byte.byte) :=
  omap (fun c => match c with
                 | FilesCreate (_, bytes) _ _ => Some bytes
                 | _ => None
                 end) l.

(** The identifiers of the uploads the script counts as done: the file
    endpoint returned, and with a non-empty identifier. *)
Definition uploaded_ids (l : list Call) : list string :=
  omap (fun c => match c with
                 | FilesCreate _ _ (Ok id) => truthy (Some id)
                 | _ => None
                 end) l.

(** The identifiers whose attach call returned. *)
Definition attached_ids (l : list Call) : list string :=
  omap (fun c => match c with
                 | VectorStoresFilesCreate _ id (Ok _) => Some id
                 | _ => None
                 end) l.

(** The attach calls, whatever their outcome. *)
Definition attach_attempts (l : list Call) : list string :=
  omap (fun c => match c with
                 | VectorStoresFilesCreate _ id _ => Some id
                 | _ => None
                 end) l.

(** The prompts sent to the chat endpoint. *)
Definition chat_calls (l : list Call) : list (list Message) :=
  omap (fun c => match c with
                 | ResponsesCreate _ input _ _ => Some input
                 | _ => None
                 end) l.

(** What was done to the disk between two states of one execution. *)
Definition disk_since (w w' : World) : list DiskOp :=
  drop (length (disk_log w)) (disk_log w').

(** What the loop over a batch does between two states: the calls [seg]
    it makes are one upload per document, in order; the handle list grows
    by the identifiers of the uploads that counted; an attach is attempted
    for exactly those; the rest of the session and the disk stay put. *)
Definition batch_effect (docs : list UploadedFile) (w w' : World)
    (seg : list Call) : Prop :=
  calls w' = calls w ++ seg /\
  upload_attempts seg = getvalue <$> docs /\
  file_ids (session_state w') = file_ids (session_state w) ++ uploaded_ids seg /\
  attach_attempts seg = uploaded_ids seg /\
  sublist (attached_ids seg) (uploaded_ids seg) /\
  vector_store_id (session_state w') = vector_store_id (session_state w) /\
  messages (session_state w') = messages (session_state w) /\
  files w' = files w.

(** The handles of a session belong to a collection: where the handle
    list is not empty, the session holds a collection identifier, and one
    Python's truth test accepts. *)
Definition handles_have_collection (s : SessionState) : Prop :=
  file_ids s <> [] ->
  exists vsid, vector_store_id s = Some vsid /\ vsid <> "".

(** ** The session dictionary *)

(** The values [st.session_state] holds under its three keys. *)
Inductive Value :=
  | VMessages (l : list Message)
  | VVectorStoreId (v : option string)
  | VFileIds (l : list string).

(** Lines 11-18: each key is given its initial value when it is not in
    the dictionary yet. *)
Definition init_session_state (d : gmap string Value) : gmap string Value :=
  let d := match d !! "messages" with
           | None => <["messages" := VMessages []]> d
           | Some _ => d
           end in
  let d := match d !! "vector_store_id" with
           | None => <["vector_store_id" := VVectorStoreId None]> d
           | Some _ => d
           end in
  match d !! "file_ids" with
  | None => <["file_ids" := VFileIds []]> d
  | Some _ => d
  end.

(** The dictionary a session is kept in between two runs. *)
Definition store_session (s : SessionState) : gmap string Value :=
  <["messages" := VMessages (messages s)]>
    (<["vector_store_id" := VVectorStoreId (vector_store_id s)]>
       (<["file_ids" := VFileIds (file_ids s)]> ∅)).

(** The attribute reads [st.session_state.messages] and so on. *)
Definition load_session (d : gmap string Value) : option SessionState :=
  match d !! "messages", d !! "vector_store_id", d !! "file_ids" with
  | Some (VMessages m), Some (VVectorStoreId v), Some (VFileIds f) =>
      Some {| messages := m; vector_store_id := v; file_ids := f |}
  | _, _, _ => None
  end.

(** ** More readings of a run *)

(** Lines 22-27: the value of [client] for a given key. *)
Definition client_for (key : string) : option Client :=
  if decide (key = "") then None else Some {| api_key := key |}.

(** Lines 118-120: what is drawn for one message of the transcript. *)
Definition bubble (message : Message) : Element :=
  ChatMessage (role message) (StWrite (content message)).

(** The calls a batch may make once its collection [vsid] exists: an
    upload with purpose "assistants", or an attach to [vsid]. *)
Definition batch_call (vsid : string) (c : Call) : Prop :=
  match c with
  | FilesCreate _ purpose _ => purpose = "assistants"
  | VectorStoresFilesCreate v _ _ => v = vsid
  | _ => False
  end.

(** A transcript in which every message is a question or an answer and
    every answer comes right after a question.  [after_user] tells
    whether the message before the list was a question. *)
Fixpoint answers_follow_questions (after_user : bool) (l : list Message) : bool :=
  match l with
  | [] => true
  | m :: l' =>
      if bool_decide (role m = "user")
      then answers_follow_questions true l'
      else if bool_decide (role m = "assistant")
           then after_user && answers_follow_questions false l'
           else false
  end.

(** ** Providers and inputs for the examples *)

Definition attach_result (id : string) : VectorStoreFile :=
  {| vsf_id := id; vsf_status := "in_progress" |}.

(** A provider that serves every request; identifiers are numbered by the
    length of the history. *)
Definition obliging : Provider :=
  {| files_create := fun _ h _ _ => Ok ("file-" +:+ pretty (length h));
     vector_stores_create := fun _ h _ => Ok ("vs_" +:+ pretty (length h));
     vector_stores_files_create := fun _ _ _ id => Ok (attach_result id);
     responses_create := fun _ _ _ _ _ => Ok "The budget in Q3 is 4.";
     uuid4 := fun h => pretty (length h) |}.


(** As [obliging], but every upload is refused. *)
Definition refuses_upload : Provider :=
  {| files_create := fun _ _ _ _ => Raise "file too large";
     vector_stores_create := vector_stores_create obliging;
     vector_stores_files_create := vector_stores_files_create obliging;
     responses_create := responses_create obliging;
     uuid4 := uuid4 obliging |}.

(** As [obliging], but no collection can be created. *)
Definition refuses_collection : Provider :=
  {| files_create := files_create obliging;
     vector_stores_create := fun _ _ _ => Raise "quota exceeded";
     vector_stores_files_create := vector_stores_files_create obliging;
     responses_create := responses_create obliging;
     uuid4 := uuid4 obliging |}.

(** As [obliging], but the chat endpoint times out. *)
Definition refuses_chat : Provider :=
  {| files_create := files_create obliging;
     vector_stores_create := vector_stores_create obliging;
     vector_stores_files_create := vector_stores_files_create obliging;
     responses_create := fun _ _ _ _ _ => Raise "Request timed out.";
     uuid4 := uuid4 obliging |}.

(** As [obliging], but the first upload of a batch is refused (it is the
    second call of a history that starts with the batch). *)
Definition refuses_first_upload : Provider :=
  {| files_create := fun _ h _ _ =>
       if decide (length h = 1) then Raise "file too large"
       else Ok ("file-" +:+ pretty (length h));
     vector_stores_create := vector_stores_create obliging;
     vector_stores_files_create := vector_stores_files_create obliging;
     responses_create := responses_create obliging;
     uuid4 := uuid4 obliging |}.

(** A provider that accepts every request and returns empty identifiers. *)
Definition returns_empty_ids : Provider :=
  {| files_create := fun _ _ _ _ => Ok "";
     vector_stores_create := fun _ _ _ => Ok "";
     vector_stores_files_create := vector_stores_files_create obliging;
     responses_create := responses_create obliging;
     uuid4 := uuid4 obliging |}.


(** A Linux system whose temporary directory takes file names of at most
    255 bytes: a transient file is named by "tmp", eight generated
    characters and the suffix, so a suffix of more than 244 bytes is
    refused, and so is one with a [/] (it would name a directory that
    does not exist) or a NUL; the environment takes any value without a
    NUL. *)
Definition has_char (c : Ascii.ascii) (s : string) : bool :=
  existsb (Ascii.eqb c) (String.list_ascii_of_string s).

Definition linux : OS :=
  {| mkstemp_error suffix :=
       if has_char Ascii.zero suffix then Some "embedded null byte"
       else if has_char (Ascii.ascii_of_nat 47) suffix
            then Some "[Errno 2] No such file or directory"
       else if decide (244 < String.length suffix)
            then Some "[Errno 36] File name too long"
       else None;
     putenv_error key value :=
       if has_char Ascii.zero value then Some "embedded null byte"
       else None |}.

Definition alice : Client := {| api_key := "sk-test" |}.

Definition report_pdf : UploadedFile :=
  {| name := "report.pdf"; getvalue := [Byte.x25; Byte.x50; Byte.x44; Byte.x46] |}.

Definition notes_txt : UploadedFile :=
  {| name := "notes.txt"; getvalue := [Byte.x68; Byte.x69] |}.

(** A document whose name has 254 characters. *)
Definition long_name_pdf : UploadedFile :=
  {| name := String.string_of_list_ascii
               (replicate 250 (Ascii.ascii_of_nat 97)) +:+ ".pdf";
     getvalue := [Byte.x25; Byte.x50; Byte.x44; Byte.x46] |}.

(** A key with a NUL in it. *)
Definition nul_key : string := String Ascii.zero "sk-test".

(** A session that already holds a knowledge base, one handle and one
    message. *)
Definition busy_world : World :=
  {| session_state :=
       {| messages := [{| role := "user"; content := "hello" |}];
          vector_store_id := Some "vs_old";
          file_ids := ["file-old"] |};
     environ := ∅; files := ∅; disk_log := []; calls := []; screen := [] |}.

Definition press_process (l : list UploadedFile) : Widgets :=
  {| api_key_input := "sk-test"; uploaded_files := l;
     process_clicked := true; clear_clicked := false; chat_input := None |}.

Definition type_prompt (key prompt : string) : Widgets :=
  {| api_key_input := key; uploaded_files := [];
     process_clicked := false; clear_clicked := false;
     chat_input := Some prompt |}.

Definition press_clear : Widgets :=
  {| api_key_input := "sk-test"; uploaded_files := [];
     process_clicked := false; clear_clicked := true; chat_input := None |}.

(** * Properties *)

(** ** The file system *)

(** The path of a new transient file is not taken. *)
Lemma fresh_tmp_path_fresh (fs : gmap TmpPath (list Byte.byte)) suffix :
  fs !! fresh_tmp_path fs suffix = None.
Proof.
  unfold fresh_tmp_path.
  apply not_elem_of_dom. intros Hin.
  apply (is_fresh (set_map (D:=gset nat) fst (dom fs))).
  apply elem_of_map. eexists. split; [|exact Hin]. reflexivity.
Qed.

(** Making, writing and removing a new file leaves the disk as it was. *)
Lemma delete_written (fs : gmap TmpPath (list Byte.byte)) path bytes :
  fs !! path = None ->
  delete path (<[path := bytes]> (<[path := []]> fs)) = fs.
Proof.
  intros Hfree. by rewrite delete_insert_eq, delete_insert_id.
Qed.

(** ** Reading the logs *)

Lemma since_app w w' seg : calls w' = calls w ++ seg -> since w w' = seg.
Proof. intros Hcalls. unfold since. by rewrite Hcalls, drop_app_length. Qed.


Lemma upload_attempts_app l1 l2 :
  upload_attempts (l1 ++ l2) = upload_attempts l1 ++ upload_attempts l2.
Proof. apply omap_app. Qed.

Lemma uploaded_ids_app l1 l2 :
  uploaded_ids (l1 ++ l2) = uploaded_ids l1 ++ uploaded_ids l2.
Proof. apply omap_app. Qed.

Lemma attached_ids_app l1 l2 :
  attached_ids (l1 ++ l2) = attached_ids l1 ++ attached_ids l2.
Proof. apply omap_app. Qed.

Lemma attach_attempts_app l1 l2 :
  attach_attempts (l1 ++ l2) = attach_attempts l1 ++ attach_attempts l2.
Proof. apply omap_app. Qed.

Lemma uploaded_ids_length l :
  length (uploaded_ids l) <= length (upload_attempts l).
Proof.
  unfold uploaded_ids, upload_attempts.
  induction l as [|c l IH]; [done|].
  destruct c as [[path bytes] purpose [id|e]| | |]; cbn in *; try lia.
  destruct (decide (id = "")); cbn in *; lia.
Qed.

Lemma batch_call_not_chat vsid seg :
  Forall (batch_call vsid) seg -> chat_calls seg = [].
Proof.
  induction 1 as [|c seg Hc _ IH]; [done|].
  unfold chat_calls in *. destruct c; cbn in *; done.
Qed.

(** ** The session dictionary *)

Lemma init_session_state_lookup (d : gmap string Value) k :
  init_session_state d !! k =
    match d !! k with
    | Some v => Some v
    | None =>
        if decide (k = "messages") then Some (VMessages [])
        else if decide (k = "vector_store_id") then Some (VVectorStoreId None)
        else if decide (k = "file_ids") then Some (VFileIds [])
        else None
    end.
Proof.
  unfold init_session_state.
  destruct (d !! "messages") as [m|] eqn:Hm;
    destruct (_ !! "vector_store_id") as [v|] eqn:Hv;
    destruct (_ !! "file_ids") as [f|] eqn:Hf.
  all: repeat first [ rewrite lookup_insert in Hv
                    | rewrite lookup_insert in Hf
                    | rewrite lookup_insert ].
  all: repeat case_decide; subst; try discriminate.
  all: rewrite ?Hm, ?Hv, ?Hf; try done.
  all: by destruct (d !! k).
Qed.

Section Properties.

Variable os : OS.
Variable openai : Provider.

(** ** Batches the system lets through *)


Lemma staged_length docs : length (staged os docs) <= length docs.
Proof.
  induction docs as [|d ds IH]; [done|].
  cbn. destruct (mkstemp_error os ("_" +:+ name d)); cbn; lia.
Qed.

(** ** The three provider helpers *)

(** What [upload_file_to_openai] does, in full.  When the system refuses
    the transient file, the exception leaves the helper and nothing
    happened.  Otherwise the file is made, written and removed around one
    call to the file endpoint with the document's bytes, with an error
    banner when the call raises, and the disk is left as it was found. *)
Lemma upload_file_to_openai_spec client uploaded_file w :
  let suffix := "_" +:+ name uploaded_file in
  let path := fresh_tmp_path (files w) suffix in
  let r := files_create openai client (calls w)
             (path, getvalue uploaded_file) "assistants" in
  upload_file_to_openai os openai client uploaded_file w =
    match mkstemp_error os suffix with
    | Some e => (Raise e, w)
    | None =>
        (Ok (match r with Ok id => Some id | Raise _ => None end),
         {| session_state := session_state w;
            environ := environ w;
            files := files w;
            disk_log := disk_log w ++
                        [Created path;
                         Written path (getvalue uploaded_file);
                         Removed path];
            calls := calls w ++
                     [FilesCreate (path, getvalue uploaded_file)
                        "assistants" r];
            screen := screen w ++
                      match r with
                      | Ok _ => []
                      | Raise e =>
                          [StError ("Error uploading file to OpenAI: " +:+ e)]
                      end |})
    end.
Proof.
  intros suffix path r. unfold upload_file_to_openai, NamedTemporaryFile.
  fold suffix. destruct (mkstemp_error os suffix) as [e|]; [done|].
  fold path. cbn [files create_file write_file calls log].
  unfold open_rb. rewrite lookup_insert_eq. fold r.
  pose proof (fresh_tmp_path_fresh (files w) suffix) as Hfree.
  fold path in Hfree.
  destruct r as [id|e].
  - unfold os_remove. cbn [files log write_file create_file].
    rewrite lookup_insert_eq.
    unfold remove_file, log, write_file, create_file; cbn.
    rewrite delete_written by done.
    by rewrite <- !app_assoc, app_nil_r.
  - unfold os_path_exists. cbn [files show log write_file create_file].
    rewrite lookup_insert_eq.
    rewrite bool_decide_eq_true_2 by eauto.
    unfold remove_file, show, log, write_file, create_file; cbn.
    rewrite delete_written by done.
    by rewrite <- !app_assoc.
Qed.

(** ** The loop over the batch *)

Lemma batch_effect_nil w : batch_effect [] w w [].
Proof.
  unfold batch_effect. rewrite !app_nil_r. repeat split; try done.
Qed.

Lemma batch_effect_app d ds w w1 w2 seg1 seg2 :
  batch_effect [d] w w1 seg1 ->
  batch_effect ds w1 w2 seg2 ->
  batch_effect (d :: ds) w w2 (seg1 ++ seg2).
Proof.
  intros (Hc1 & Hu1 & Hf1 & Ha1 & Hs1 & Hv1 & Hm1 & Hd1)
         (Hc2 & Hu2 & Hf2 & Ha2 & Hs2 & Hv2 & Hm2 & Hd2).
  unfold batch_effect.
  rewrite upload_attempts_app, uploaded_ids_app, attach_attempts_app,
    attached_ids_app.
  repeat split.
  - by rewrite Hc2, Hc1, app_assoc.
  - by rewrite Hu1, Hu2.
  - by rewrite Hf2, Hf1, app_assoc.
  - by rewrite Ha1, Ha2.
  - by apply sublist_app.
  - by rewrite Hv2.
  - by rewrite Hm2.
  - by rewrite Hd2.
Qed.

(** One turn of the loop, lines 87-95: it is left by the exception of a
    refused transient file, with nothing done, or it runs to its end. *)
Lemma process_file_effect client vsid w uploaded_file :
  match mkstemp_error os ("_" +:+ name uploaded_file) with
  | Some e =>
      process_file os openai client vsid w uploaded_file = (Uncaught e, w)
  | None =>
      fst (process_file os openai client vsid w uploaded_file) = Completed /\
      exists seg,
        batch_effect [uploaded_file] w
          (snd (process_file os openai client vsid w uploaded_file)) seg /\
        Forall (batch_call vsid) seg /\
        length seg <= 2
  end.
Proof.
  unfold process_file. rewrite upload_file_to_openai_spec.
  destruct (mkstemp_error os ("_" +:+ name uploaded_file)) as [e|]; [done|].
  split; [done|]. cbn [snd].
  set (path := fresh_tmp_path _ _).
  destruct (files_create openai client (calls w)
              (path, getvalue uploaded_file) "assistants") as [id|e] eqn:Hr.
  - assert (Hids : forall r' : result VectorStoreFile,
              uploaded_ids
                [FilesCreate (path, getvalue uploaded_file) "assistants" (Ok id);
                 VectorStoresFilesCreate vsid id r'] =
              match truthy (Some id) with Some i => [i] | None => [] end).
    { intros r'. cbn. by destruct (decide (id = "")). }
    assert (Hid1 : uploaded_ids
                [FilesCreate (path, getvalue uploaded_file) "assistants" (Ok id)] =
              match truthy (Some id) with Some i => [i] | None => [] end).
    { cbn. by destruct (decide (id = "")). }
    destruct (truthy (Some id)) as [id'|] eqn:Hid.
    + assert (id' = id) as ->.
      { cbn in Hid. destruct (decide (id = "")); congruence. }
      unfold add_file_to_vector_store; cbn [calls set_session log].
      set (a := vector_stores_files_create _ _ _ _ _).
      exists [FilesCreate (path, getvalue uploaded_file) "assistants" (Ok id);
              VectorStoresFilesCreate vsid id a].
      split; [|split; [by repeat constructor|done]].
      unfold batch_effect. rewrite Hids.
      destruct a; cbn; rewrite <- ?app_assoc; repeat split; try done.
      apply sublist_nil_l.
    + exists [FilesCreate (path, getvalue uploaded_file) "assistants" (Ok id)].
      split; [|split; [by repeat constructor|cbn; lia]].
      unfold batch_effect. rewrite Hid1. cbn.
      rewrite !app_nil_r. repeat split; done.
  - exists [FilesCreate (path, getvalue uploaded_file) "assistants" (Raise e)].
    split; [|split; [by repeat constructor|cbn; lia]].
    unfold batch_effect; cbn. rewrite !app_nil_r. repeat split; done.
Qed.

(** The whole loop, lines 86-95: a refused upload or attach changes
    nothing for the turns after it; only a transient file the system
    refuses ends the loop, before that document is uploaded. *)
Lemma process_files_effect client vsid docs w :
  fst (process_files os openai client vsid docs w) = batch_status os docs /\
  exists seg,
    batch_effect (staged os docs) w
      (snd (process_files os openai client vsid docs w)) seg /\
    Forall (batch_call vsid) seg /\
    length seg <= 2 * length docs.
Proof.
  revert w. induction docs as [|d ds IH]; intros w.
  - split; [done|]. exists []. split; [apply batch_effect_nil|]. by split.
  - cbn [process_files staged batch_status].
    pose proof (process_file_effect client vsid w d) as Hd.
    destruct (mkstemp_error os ("_" +:+ name d)) as [e|].
    + rewrite Hd. split; [done|]. exists [].
      split; [apply batch_effect_nil|]. split; [done|cbn; lia].
    + destruct Hd as (Hst & seg1 & H1 & F1 & L1).
      destruct (process_file os openai client vsid w d) as [st w1].
      cbn [fst snd] in *. subst st.
      destruct (IH w1) as (Hst2 & seg2 & H2 & F2 & L2).
      split; [done|]. exists (seg1 ++ seg2).
      split; [by eapply batch_effect_app|].
      split; [by apply Forall_app|].
      rewrite length_app. cbn [length]. lia.
Qed.

(** ** The "Process Documents" handler *)

(** The handler when the collection was created and its identifier is
    not empty. *)
Lemma process_documents_created client docs w vsid :
  vector_stores_create openai client (calls w) (collection_name openai w)
    = Ok vsid ->
  vsid <> "" ->
  fst (process_documents os openai client docs w) = batch_status os docs /\
  exists seg,
    since w (snd (process_documents os openai client docs w))
      = VectorStoresCreate (collection_name openai w) (Ok vsid) :: seg /\
    upload_attempts seg = getvalue <$> staged os docs /\
    attach_attempts seg = uploaded_ids seg /\
    sublist (attached_ids seg) (uploaded_ids seg) /\
    Forall (batch_call vsid) seg /\
    length seg <= 2 * length docs /\
    session_state (snd (process_documents os openai client docs w))
      = {| messages := match batch_status os docs with
                       | Completed => []
                       | Uncaught _ => messages (session_state w)
                       end;
           vector_store_id := Some vsid;
           file_ids := uploaded_ids seg |} /\
    files (snd (process_documents os openai client docs w)) = files w.
Proof.
  intros Hr Hne. unfold process_documents, create_vector_store.
  rewrite Hr. cbn [truthy]. rewrite decide_False by done.
  set (w0 := set_session (set_file_ids []) _).
  destruct (process_files_effect client vsid docs w0)
    as (Hst & seg & (Hc & Hu & Hf & Ha & Hs & Hv & Hm & Hd) & HF & HL).
  destruct (process_files os openai client vsid docs w0) as [st w1].
  cbn [fst snd] in *. subst st.
  destruct (batch_status os docs) as [|e]; cbn [fst snd].
  - split; [done|]. exists seg. repeat split; try done.
    + apply since_app. cbn [calls show set_session]. rewrite Hc.
      subst w0. cbn. by rewrite <- app_assoc.
    + cbn [session_state show set_session]. unfold set_messages.
      rewrite Hf, Hv. by subst w0.
  - split; [done|]. exists seg. repeat split; try done.
    + apply since_app. rewrite Hc. subst w0. cbn. by rewrite <- app_assoc.
    + destruct (session_state w1) as [m v f]. cbn in *. subst.
      by subst w0.
Qed.

(** The handler when no usable collection identifier came back: the
    creation call is all that happened. *)
Lemma process_documents_not_created client docs w :
  truthy (fst (create_vector_store openai client w)) = None ->
  let r := vector_stores_create openai client (calls w)
             (collection_name openai w) in
  fst (process_documents os openai client docs w) = Completed /\
  since w (snd (process_documents os openai client docs w))
    = [VectorStoresCreate (collection_name openai w) r] /\
  session_state (snd (process_documents os openai client docs w))
    = session_state w /\
  files (snd (process_documents os openai client docs w)) = files w.
Proof.
  intros Hnone r. unfold process_documents.
  destruct (create_vector_store openai client w) as [v w1] eqn:Hcreate.
  cbn [fst] in Hnone. rewrite Hnone.
  unfold create_vector_store in Hcreate. fold r in Hcreate.
  destruct r; inversion Hcreate; subst; cbn;
    (split; [done|]); (split; [by apply since_app | done]).
Qed.



(** C7: when the creation of the collection fails, the batch is given
    up: the creation call is the only provider call of the action, so no
    document is uploaded and nothing is attached; the session and the
    disk are as before. *)
Theorem creation_failure_aborts_batch client docs w e :
  vector_stores_create openai client (calls w) (collection_name openai w)
    = Raise e ->
  let w' := snd (process_documents os openai client docs w) in
  since w w' = [VectorStoresCreate (collection_name openai w) (Raise e)] /\
  upload_attempts (since w w') = [] /\
  attach_attempts (since w w') = [] /\
  session_state w' = session_state w /\
  files w' = files w.
Proof.
  intros Hr w'.
  destruct (process_documents_not_created client docs w)
    as (_ & Hs & Hst & Hf).
  { unfold create_vector_store. by rewrite Hr. }
  subst w'. rewrite Hs, Hr. by repeat split.
Qed.


(** ** The chat handler *)

(** The chat handler never touches the collection identifier or the
    handle list. *)
Lemma ask_keeps_documents client prompt w :
  vector_store_id (session_state (ask openai client prompt w))
    = vector_store_id (session_state w) /\
  file_ids (session_state (ask openai client prompt w))
    = file_ids (session_state w).
Proof.
  unfold ask. destruct client as [c|]; cbn; [|done].
  destruct (truthy (vector_store_id (session_state w))); cbn; [|done].
  by destruct (responses_create openai c (calls w) "gpt-4o-mini"
                 (chat_request prompt) (file_search s)).
Qed.

(** C4: with a client and an active knowledge base, when the chat call
    raises, the transcript is the old one followed by the user's
    question and nothing else; the error is shown in place of a reply. *)
Theorem failed_chat_keeps_question client prompt w vsid e :
  truthy (vector_store_id (session_state w)) = Some vsid ->
  responses_create openai client (calls w) "gpt-4o-mini"
    (chat_request prompt) (file_search vsid) = Raise e ->
  let w' := ask openai (Some client) prompt w in
  messages (session_state w')
    = messages (session_state w) ++ [{| role := "user"; content := prompt |}] /\
  screen w'
    = screen w ++ [ChatMessage "user" (StWrite prompt);
                   ChatMessage "assistant" (StError ("Error: " +:+ e))].
Proof.
  intros Hkb Hr w'. subst w'. unfold ask. cbn.
  rewrite Hkb. cbn. rewrite Hr. cbn.
  split; [done|]. by rewrite <- app_assoc.
Qed.

(** C5: a question asked while the session holds no collection
    identifier makes no provider call, and the reply on the page is a
    fixed instruction: the one about documents when there is a client,
    the one about the key when there is none. *)
Theorem no_knowledge_base_no_call client prompt w :
  vector_store_id (session_state w) = None ->
  let w' := ask openai client prompt w in
  calls w' = calls w /\
  chat_calls (since w w') = [] /\
  screen w'
    = screen w ++
      [ChatMessage "user" (StWrite prompt);
       ChatMessage "assistant"
         (StWrite match client with
                  | Some _ => missing_documents_reply
                  | None => missing_key_reply
                  end)].
Proof.
  intros Hkb w'. subst w'. unfold ask, since.
  destruct client as [c|]; cbn; rewrite ?Hkb; cbn;
    rewrite drop_all, <- app_assoc; done.
Qed.

(** C10: on every path of the chat handler the transcript is the old
    one, then the user's question, then the provider's answer if there
    was one: nothing follows the question when the client is missing,
    when the knowledge base is missing or when the call raises.  A
    missing client is answered with the instruction about the key and
    without a provider call, whatever the knowledge base is. *)
Theorem question_recorded_on_every_path client prompt w :
  let w' := ask openai client prompt w in
  messages (session_state w')
    = messages (session_state w) ++
      {| role := "user"; content := prompt |} ::
      match client with
      | None => []
      | Some c =>
          match truthy (vector_store_id (session_state w)) with
          | None => []
          | Some vsid =>
              match responses_create openai c (calls w) "gpt-4o-mini"
                      (chat_request prompt) (file_search vsid) with
              | Ok answer => [{| role := "assistant"; content := answer |}]
              | Raise _ => []
              end
          end
      end /\
  screen (ask openai None prompt w)
    = screen w ++ [ChatMessage "user" (StWrite prompt);
                   ChatMessage "assistant" (StWrite missing_key_reply)] /\
  calls (ask openai None prompt w) = calls w.
Proof.
  intros w'. subst w'. unfold ask. split.
  - destruct client as [c|]; cbn; [|done].
    destruct (truthy (vector_store_id (session_state w))); cbn; [|done].
    destruct (responses_create openai c (calls w) "gpt-4o-mini"
                (chat_request prompt) (file_search s)); cbn; [|done].
    by rewrite <- app_assoc.
  - cbn. by rewrite <- app_assoc.
Qed.

(** What the chat handler does to the transcript, the log and the disk,
    path by path. *)
Lemma ask_effect client prompt w :
  files (ask openai client prompt w) = files w /\
  ((calls (ask openai client prompt w) = calls w /\
    messages (session_state (ask openai client prompt w))
      = messages (session_state w) ++ [{| role := "user"; content := prompt |}])
   \/
   exists c vsid r,
     client = Some c /\
     truthy (vector_store_id (session_state w)) = Some vsid /\
     r = responses_create openai c (calls w) "gpt-4o-mini"
           (chat_request prompt) (file_search vsid) /\
     calls (ask openai client prompt w)
       = calls w ++ [ResponsesCreate "gpt-4o-mini" (chat_request prompt)
                       (file_search vsid) r] /\
     messages (session_state (ask openai client prompt w))
       = messages (session_state w) ++
         {| role := "user"; content := prompt |} ::
         match r with
         | Ok answer => [{| role := "assistant"; content := answer |}]
         | Raise _ => []
         end).
Proof.
  unfold ask. destruct client as [c|]; cbn; [|by split; [|left]].
  destruct (truthy (vector_store_id (session_state w))) as [vsid|] eqn:Hkb;
    cbn; [|by split; [|left]].
  destruct (responses_create openai c (calls w) "gpt-4o-mini"
              (chat_request prompt) (file_search vsid)) as [a|e] eqn:Hr; cbn.
  - split; [done|]. right. exists c, vsid, (Ok a).
    rewrite <- app_assoc. by rewrite Hr.
  - split; [done|]. right. exists c, vsid, (Raise e). by rewrite Hr.
Qed.

(** ** The "Clear All Documents" handler *)

(** The clear handler makes no provider call and leaves the disk alone:
    nothing is deleted remotely. *)
Lemma clear_all_documents_local w :
  calls (clear_all_documents w) = calls w /\
  files (clear_all_documents w) = files w.
Proof. done. Qed.

(** C6: whatever the session held, the clear handler leaves a session
    with no collection identifier, no handle and no message, and it makes
    no provider call. *)
Theorem clear_yields_new_session w :
  session_state (clear_all_documents w) = new_session /\
  calls (clear_all_documents w) = calls w.
Proof.
  split; [reflexivity|]. apply clear_all_documents_local.
Qed.

(** ** Frames of the small steps *)

(** Lines 21-27, case by case: no key, a key the environment refuses, a
    key that is stored. *)
Lemma make_client_cases key w :
  (key = "" /\
   make_client os key w
     = (Ok (client_for key),
        show (StWarning "Please enter your OpenAI API key to continue") w)) \/
  (key <> "" /\ exists e,
     putenv_error os "OPENAI_API_KEY" key = Some e /\
     make_client os key w = (Raise e, w)) \/
  (key <> "" /\ key_accepted os key /\
   make_client os key w
     = (Ok (client_for key), set_environ "OPENAI_API_KEY" key w)).
Proof.
  unfold make_client, client_for, key_accepted.
  destruct (decide (key = "")) as [->|Hne]; [by left|]. right.
  destruct (putenv_error os "OPENAI_API_KEY" key) as [e|] eqn:He.
  - left. split; [done|]. by exists e.
  - by right.
Qed.

Lemma client_for_no_key key c : key = "" -> client_for key = Some c -> False.
Proof. intros -> Hc. unfold client_for in Hc. by rewrite decide_True in Hc. Qed.

Lemma foldl_show_bubbles l w :
  foldl (fun w message => show (bubble message) w) w l =
    {| session_state := session_state w; environ := environ w;
       files := files w; disk_log := disk_log w;
       calls := calls w; screen := screen w ++ (bubble <$> l) |}.
Proof.
  revert w. induction l as [|m l IH]; intros w.
  - destruct w; cbn. by rewrite app_nil_r.
  - cbn [foldl]. rewrite IH. cbn. by rewrite <- app_assoc.
Qed.

Lemma show_messages_spec w :
  show_messages w =
    {| session_state := session_state w; environ := environ w;
       files := files w; disk_log := disk_log w;
       calls := calls w;
       screen := screen w ++ (bubble <$> messages (session_state w)) |}.
Proof. unfold show_messages. apply foldl_show_bubbles. Qed.

Lemma show_messages_preserves (P : World -> Prop) w :
  (forall w e, P w -> P (show e w)) -> P w -> P (show_messages w).
Proof.
  intros Hshow. unfold show_messages.
  generalize (messages (session_state w)). intros l. revert w.
  induction l as [|m l IH]; intros w Hw; [done|].
  cbn [foldl]. apply IH. by apply Hshow.
Qed.

(** What a batch does to the session and the disk, however it ends: the
    session is as it was, or it holds a new non-empty collection
    identifier, the handles uploaded, and a transcript that is empty or
    the one it was. *)
Lemma process_documents_effect client docs w :
  files (snd (process_documents os openai client docs w)) = files w /\
  (session_state (snd (process_documents os openai client docs w))
     = session_state w
   \/
   exists vsid seg,
     vsid <> "" /\
     vector_store_id
       (session_state (snd (process_documents os openai client docs w)))
       = Some vsid /\
     file_ids
       (session_state (snd (process_documents os openai client docs w)))
       = uploaded_ids seg /\
     (messages
        (session_state (snd (process_documents os openai client docs w)))
        = [] \/
      messages
        (session_state (snd (process_documents os openai client docs w)))
        = messages (session_state w))).
Proof.
  destruct (truthy (fst (create_vector_store openai client w)))
    as [vsid|] eqn:Hcreate.
  - unfold create_vector_store in Hcreate.
    destruct (vector_stores_create openai client (calls w)
                (collection_name openai w)) as [id|e] eqn:Hr;
      cbn in Hcreate; [|done].
    destruct (decide (id = "")) as [->|Hne]; [done|].
    destruct (process_documents_created client docs w id Hr Hne)
      as (_ & seg & _ & _ & _ & _ & _ & _ & Hs & Hf).
    split; [done|]. right. exists id, seg. rewrite Hs. cbn.
    repeat split; try done. destruct (batch_status os docs); auto.
  - destruct (process_documents_not_created client docs w Hcreate)
      as (_ & _ & Hs & Hf). split; [done|]. by left.
Qed.

(** ** Invariants of a run *)

(** A property of the state survives the sidebar and the chat when every
    step they can take keeps it: drawing, and the handlers the widget
    values let run, however they end. *)
Lemma page_invariant (P : World -> Prop) client wd w :
  P w ->
  (forall w e, P w -> P (show e w)) ->
  (forall c, client = Some c ->
             uploaded_files wd <> [] ->
             process_clicked wd = true ->
             forall w, P w ->
                       P (snd (process_documents os openai c
                                 (uploaded_files wd) w))) ->
  (clear_clicked wd = true ->
   forall w, file_ids (session_state w) <> [] ->
             P w -> P (clear_all_documents w)) ->
  (forall prompt, truthy (chat_input wd) = Some prompt ->
                  forall w, P w -> P (ask openai client prompt w)) ->
  P (fst (page os openai client wd w)).
Proof.
  intros Hw Hshow Hprocess Hclear Hask. unfold page.
  set (pair := match uploaded_files wd with [] => _ | _ :: _ => _ end).
  assert (H2 : P (snd pair)).
  { subst pair. destruct (uploaded_files wd) as [|d ds] eqn:Hdocs; [done|].
    destruct client as [c|] eqn:Hc; [|done].
    destruct (process_clicked wd) eqn:Hp; [|done].
    by apply Hprocess. }
  clearbody pair. destruct pair as [[|e] w2]; cbn [snd] in H2.
  2: { cbn [fst]. by apply Hshow. }
  assert (Hchat : forall w3, P w3 -> P (chat openai client wd w3)).
  { intros w3 H3. unfold chat.
    pose proof (show_messages_preserves P w3 Hshow H3) as H4.
    destruct (truthy (chat_input wd)) as [prompt|] eqn:Hprompt; [|done].
    by apply Hask. }
  destruct (file_ids (session_state w2)) as [|i l] eqn:Hids.
  - cbn [fst]. by apply Hchat.
  - destruct (clear_clicked wd) eqn:Hc; cbn [fst].
    + apply Hclear; [done| |by do 2 apply Hshow].
      cbn. by rewrite Hids.
    + apply Hchat. by do 2 apply Hshow.
Qed.

(** The same for a whole pass, which first draws a blank page and
    stores the key. *)
Lemma script_invariant (P : World -> Prop) wd w :
  P w ->
  (forall w e, P w -> P (show e w)) ->
  (forall w, P w -> P (blank_page w)) ->
  (forall w, P w -> P (set_environ "OPENAI_API_KEY" (api_key_input wd) w)) ->
  (forall c, client_for (api_key_input wd) = Some c ->
             uploaded_files wd <> [] ->
             process_clicked wd = true ->
             forall w, P w ->
                       P (snd (process_documents os openai c
                                 (uploaded_files wd) w))) ->
  (clear_clicked wd = true ->
   forall w, file_ids (session_state w) <> [] ->
             P w -> P (clear_all_documents w)) ->
  (forall prompt, truthy (chat_input wd) = Some prompt ->
                  forall w, P w ->
                            P (ask openai (client_for (api_key_input wd))
                                 prompt w)) ->
  P (fst (script os openai wd w)).
Proof.
  intros Hw Hshow Hreset Henv Hprocess Hclear Hask.
  unfold script.
  destruct (make_client_cases (api_key_input wd) (blank_page w))
    as [[Hkey ->]|[(Hkey & e & _ & ->)|(Hkey & _ & ->)]].
  - apply page_invariant; try done. by apply Hshow, Hreset.
  - cbn [fst]. by apply Hshow, Hreset.
  - apply page_invariant; try done. by apply Henv, Hreset.
Qed.

(** The same for a whole user action, the pass after [st.rerun()]
    included. *)
Lemma run_invariant (P : World -> Prop) wd w :
  P w ->
  (forall w e, P w -> P (show e w)) ->
  (forall w, P w -> P (blank_page w)) ->
  (forall w, P w -> P (set_environ "OPENAI_API_KEY" (api_key_input wd) w)) ->
  (forall c, client_for (api_key_input wd) = Some c ->
             uploaded_files wd <> [] ->
             process_clicked wd = true ->
             forall w, P w ->
                       P (snd (process_documents os openai c
                                 (uploaded_files wd) w))) ->
  (clear_clicked wd = true ->
   forall w, file_ids (session_state w) <> [] ->
             P w -> P (clear_all_documents w)) ->
  (forall prompt, truthy (chat_input wd) = Some prompt ->
                  forall w, P w ->
                            P (ask openai (client_for (api_key_input wd))
                                 prompt w)) ->
  P (run os openai wd w).
Proof.
  intros Hw Hshow Hreset Henv Hprocess Hclear Hask. unfold run.
  pose proof (script_invariant P wd w Hw Hshow Hreset Henv Hprocess
                Hclear Hask) as H1.
  destruct (script os openai wd w) as [w1 ending]. cbn [fst] in H1.
  destruct ending; try done.
  apply script_invariant; try done.
Qed.

Lemma reachable_invariant (P : World -> Prop) w :
  P new_world ->
  (forall wd w, P w -> P (run os openai wd w)) ->
  reachable os openai w -> P w.
Proof. intros Hnew Hrun Hreach. induction Hreach; auto. Qed.

(** C2 (amended): in every state a session can reach, if at least one
    handle is listed then the session holds a collection identifier (a
    non-empty one).  The converse is not promised: a collection whose
    uploads all failed is held with an empty handle list. *)
Theorem handles_imply_knowledge_base w :
  reachable os openai w ->
  file_ids (session_state w) <> [] ->
  exists vsid, vector_store_id (session_state w) = Some vsid /\ vsid <> "".
Proof.
  intros Hreach. change (handles_have_collection (session_state w)).
  apply (reachable_invariant
           (fun w => handles_have_collection (session_state w)));
    [by intros ?| |done].
  clear w Hreach. intros wd w Hw.
  apply (run_invariant
           (fun w' => handles_have_collection (session_state w')));
    try done.
  - intros c _ _ _ w' Hw'.
    destruct (process_documents_effect c (uploaded_files wd) w')
      as [_ [->|(vsid & seg & Hne & Hv & _)]]; [done|].
    intros _. by exists vsid.
  - intros _ w' _ _ Hne. by destruct Hne.
  - intros prompt _ w' Hw'.
    destruct (ask_keeps_documents
                (client_for (api_key_input wd)) prompt w') as [Hv Hf].
    unfold handles_have_collection. by rewrite Hv, Hf.
Qed.

Lemma answers_follow_questions_app after l prompt tail :
  answers_follow_questions after l = true ->
  tail = [] \/ (exists answer, tail = [{| role := "assistant"; content := answer |}]) ->
  answers_follow_questions after
    (l ++ {| role := "user"; content := prompt |} :: tail) = true.
Proof.
  revert after. induction l as [|m l IH]; intros after Hl Htail.
  - destruct Htail as [->|[answer ->]]; reflexivity.
  - cbn in Hl |- *. destruct (bool_decide (role m = "user")); [by apply IH|].
    destruct (bool_decide (role m = "assistant")); [|done].
    apply andb_true_iff in Hl as [-> Hl]. by apply IH.
Qed.

(** ** Passes that press no button, passes that press "Clear" *)

Lemma script_key_refused wd w e :
  api_key_input wd <> "" ->
  putenv_error os "OPENAI_API_KEY" (api_key_input wd) = Some e ->
  script os openai wd w = (show (StException e) (blank_page w), Aborted e).
Proof.
  intros Hkey He. unfold script, make_client.
  rewrite decide_False by done. by rewrite He.
Qed.

Lemma script_key_ok wd w :
  api_key_input wd = "" \/ key_accepted os (api_key_input wd) ->
  exists w1,
    script os openai wd w
      = page os openai (client_for (api_key_input wd)) wd w1 /\
    session_state w1 = session_state w /\
    calls w1 = calls w /\
    files w1 = files w.
Proof.
  intros Hok. unfold script.
  destruct (make_client_cases (api_key_input wd) (blank_page w))
    as [[Hkey ->]|[(Hkey & e & He & ->)|(Hkey & _ & ->)]].
  - by eexists.
  - destruct Hok as [Hok|Hok]; [done|].
    unfold key_accepted in Hok. congruence.
  - by eexists.
Qed.

Lemma page_without_click client wd w :
  process_clicked wd = false ->
  clear_clicked wd = false ->
  exists w3,
    page os openai client wd w = (chat openai client wd w3, Finished) /\
    session_state w3 = session_state w /\
    calls w3 = calls w /\
    files w3 = files w.
Proof.
  intros Hp Hc. unfold page. rewrite Hp, Hc.
  assert (Hsame : (match uploaded_files wd with
                   | [] => (Completed, w)
                   | _ :: _ =>
                       match client with
                       | Some _ => (Completed, w)
                       | None => (Completed, w)
                       end
                   end) = (Completed, w)).
  { destruct (uploaded_files wd); [done|]. by destruct client. }
  rewrite Hsame.
  destruct (file_ids (session_state w)); eexists; (split; [reflexivity|]);
    by cbn.
Qed.

Lemma page_clear client wd w :
  process_clicked wd = false ->
  clear_clicked wd = true ->
  file_ids (session_state w) <> [] ->
  exists w3,
    page os openai client wd w = (clear_all_documents w3, Rerun) /\
    calls w3 = calls w /\
    files w3 = files w.
Proof.
  intros Hp Hc Hne. unfold page. rewrite Hp, Hc.
  assert (Hsame : (match uploaded_files wd with
                   | [] => (Completed, w)
                   | _ :: _ =>
                       match client with
                       | Some _ => (Completed, w)
                       | None => (Completed, w)
                       end
                   end) = (Completed, w)).
  { destruct (uploaded_files wd); [done|]. by destruct client. }
  rewrite Hsame.
  destruct (file_ids (session_state w)) eqn:Hids; [done|].
  eexists. split; [reflexivity|]. by cbn.
Qed.

(** A click on "Clear All Documents", where the button is drawn and the
    key line lets the pass through: the new session, and the log as it
    was. *)
Lemma run_clear_effect wd w :
  api_key_input wd = "" \/ key_accepted os (api_key_input wd) ->
  process_clicked wd = false ->
  clear_clicked wd = true ->
  file_ids (session_state w) <> [] ->
  session_state (run os openai wd w) = new_session /\
  calls (run os openai wd w) = calls w.
Proof.
  intros Hok Hp Hc Hne. unfold run.
  destruct (script_key_ok wd w Hok) as (w1 & -> & Hs1 & Hc1 & _).
  destruct (page_clear (client_for (api_key_input wd)) wd w1 Hp Hc)
    as (w3 & -> & Hc3 & _); [by rewrite Hs1|].
  destruct (script_key_ok (rerun_widgets wd) (clear_all_documents w3))
    as (w4 & -> & Hs4 & Hc4 & _); [done|].
  destruct (page_without_click
              (client_for (api_key_input (rerun_widgets wd)))
              (rerun_widgets wd) w4)
    as (w5 & -> & Hs5 & Hc5 & _); [done..|].
  cbn [fst]. unfold chat. cbn [rerun_widgets chat_input truthy].
  rewrite show_messages_spec. cbn [session_state calls].
  rewrite Hs5, Hs4, Hc5, Hc4. cbn. by rewrite Hc3, Hc1.
Qed.

(** ** Further properties of a run *)

(** X1: with no API key typed, a user action makes no provider call,
    whatever is clicked or asked. *)
Theorem no_key_no_provider_call wd w :
  api_key_input wd = "" ->
  calls (run os openai wd w) = calls w.
Proof.
  intros Hkey.
  apply (run_invariant (fun w' => calls w' = calls w)); try done.
  - intros c Hc. by destruct (client_for_no_key _ c Hkey).
  - intros prompt _ w' Hw'.
    unfold client_for. rewrite decide_True by done. by cbn.
Qed.

(** X2: a run in which nothing is submitted leaves the session, the call
    log and the disk as they were: no prompt is pending, "Clear All
    Documents" is not pressed, and "Process Documents" is not pressed or
    cannot be (no file chosen, or no key). *)
Theorem idle_run_keeps_state wd w :
  process_clicked wd = false \/ uploaded_files wd = [] \/
    api_key_input wd = "" ->
  clear_clicked wd = false ->
  truthy (chat_input wd) = None ->
  session_state (run os openai wd w) = session_state w /\
  calls (run os openai wd w) = calls w /\
  files (run os openai wd w) = files w.
Proof.
  intros Hidle Hclear Hprompt.
  apply (run_invariant
           (fun w' => session_state w' = session_state w /\
                      calls w' = calls w /\ files w' = files w));
    try done.
  - intros c Hc Hdocs Hp. destruct Hidle as [H|[H|H]]; [congruence|done|].
    by destruct (client_for_no_key _ c H).
  - congruence.
  - congruence.
Qed.


(** X4: a user action that presses neither button only ever adds to the
    end of the transcript: the messages held before are a prefix of the
    messages held after. *)
Theorem transcript_only_grows wd w :
  process_clicked wd = false ->
  clear_clicked wd = false ->
  messages (session_state w) `prefix_of`
    messages (session_state (run os openai wd w)).
Proof.
  intros Hp Hc.
  apply (run_invariant
           (fun w' => messages (session_state w) `prefix_of`
                        messages (session_state w'))); try done.
  - congruence.
  - congruence.
  - intros prompt _ w' Hw'.
    destruct (ask_effect (client_for (api_key_input wd)) prompt w')
      as [_ [[_ ->]|(c & vsid & r & _ & _ & _ & _ & ->)]];
      by apply prefix_app_r.
Qed.

(** X5: in every state a session can reach, the stored collection
    identifier is never the empty string, so the truth test of line 137
    fails exactly when no identifier is stored. *)
Theorem collection_id_never_empty w :
  reachable os openai w ->
  vector_store_id (session_state w) <> Some "" /\
  truthy (vector_store_id (session_state w)) = vector_store_id (session_state w).
Proof.
  intros Hreach.
  assert (H : vector_store_id (session_state w) <> Some "").
  { apply (reachable_invariant
             (fun w => vector_store_id (session_state w) <> Some ""));
      [done| |done].
    intros wd w0 Hw0.
    apply (run_invariant
             (fun w' => vector_store_id (session_state w') <> Some ""));
      try done.
    - intros c _ _ _ w' Hw'.
      destruct (process_documents_effect c (uploaded_files wd) w')
        as [_ [->|(vsid & seg & Hne & -> & _)]]; [done|].
      congruence.
    - intros prompt _ w' Hw'.
      by destruct (ask_keeps_documents
                     (client_for (api_key_input wd)) prompt w') as [-> _]. }
  split; [done|].
  destruct (vector_store_id (session_state w)) as [id|]; [|done].
  cbn. rewrite decide_False; [done|congruence].
Qed.

(** X6: in every state a session can reach, the transcript holds only
    questions (role "user") and answers (role "assistant"), and every
    answer comes right after a question; the system instruction is never
    stored. *)
Theorem transcript_well_formed w :
  reachable os openai w ->
  answers_follow_questions false (messages (session_state w)) = true.
Proof.
  apply (reachable_invariant
           (fun w => answers_follow_questions false
                       (messages (session_state w)) = true)); [done|].
  intros wd w0 Hw0.
  apply (run_invariant
           (fun w' => answers_follow_questions false
                        (messages (session_state w')) = true));
    try done.
  - intros c _ _ _ w' Hw'.
    destruct (process_documents_effect c (uploaded_files wd) w')
      as [_ [->|(vsid & seg & _ & _ & _ & [->| ->])]]; done.
  - intros prompt _ w' Hw'.
    destruct (ask_effect (client_for (api_key_input wd)) prompt w')
      as [_ [[_ ->]|(c & vsid & r & _ & _ & _ & _ & ->)]].
    + apply answers_follow_questions_app; [done|by left].
    + apply answers_follow_questions_app; [done|].
      destruct r; [right; eauto|by left].
Qed.

(** X7: a question asked with a key the environment takes and an active
    knowledge base, when the provider answers: the run makes exactly one
    provider call, the chat request for that question scoped to the
    active collection, and the transcript grows by the question and then
    the answer. *)
Theorem answered_question_recorded wd w prompt vsid answer :
  api_key_input wd <> "" ->
  key_accepted os (api_key_input wd) ->
  process_clicked wd = false ->
  clear_clicked wd = false ->
  truthy (chat_input wd) = Some prompt ->
  truthy (vector_store_id (session_state w)) = Some vsid ->
  responses_create openai {| api_key := api_key_input wd |} (calls w)
    "gpt-4o-mini" (chat_request prompt) (file_search vsid) = Ok answer ->
  let w' := run os openai wd w in
  messages (session_state w')
    = messages (session_state w) ++
      [{| role := "user"; content := prompt |};
       {| role := "assistant"; content := answer |}] /\
  since w w'
    = [ResponsesCreate "gpt-4o-mini" (chat_request prompt) (file_search vsid)
         (Ok answer)] /\
  vector_store_id (session_state w') = vector_store_id (session_state w) /\
  file_ids (session_state w') = file_ids (session_state w).
Proof.
  intros Hkey Hok Hp Hc Hprompt Hkb Hr w'. subst w'. unfold run.
  destruct (script_key_ok wd w) as (w1 & -> & Hs1 & Hc1 & _); [by right|].
  destruct (page_without_click (client_for (api_key_input wd)) wd w1 Hp Hc)
    as (w3 & -> & Hs & Hcalls & _).
  unfold chat. rewrite Hprompt, show_messages_spec.
  unfold client_for. rewrite decide_False by done.
  unfold ask. cbn. rewrite Hs, Hs1, Hkb, Hcalls, Hc1. cbn. rewrite Hr. cbn.
  rewrite <- app_assoc. repeat split; try done.
  by apply since_app.
Qed.

(** X8: one question makes at most one provider call, and that call is
    a chat request to model "gpt-4o-mini" holding the system instruction
    and this question only (no earlier message of the transcript), with a
    file-search tool scoped to the collection of the session. *)
Theorem question_makes_one_scoped_call client prompt w :
  let w' := ask openai client prompt w in
  length (since w w') <= 1 /\
  forall call, call ∈ since w w' ->
    exists vsid r,
      truthy (vector_store_id (session_state w)) = Some vsid /\
      call = ResponsesCreate "gpt-4o-mini"
               [{| role := "system"; content := system_instruction |};
                {| role := "user"; content := prompt |}]
               [{| type := "file_search"; vector_store_ids := [vsid] |}] r.
Proof.
  intros w'. subst w'.
  destruct (ask_effect client prompt w)
    as [_ [[Hcalls _]|(c & vsid & r & _ & Hkb & _ & Hcalls & _)]].
  - rewrite (since_app w _ []) by (by rewrite app_nil_r).
    split; [cbn; lia|]. intros call Hin. by apply elem_of_nil in Hin.
  - rewrite (since_app w _ _ Hcalls). split; [done|].
    intros call Hin. apply list_elem_of_singleton in Hin as ->.
    by exists vsid, r.
Qed.

(** X9: clearing the documents makes no provider call: nothing is
    deleted remotely, the collection and the files are only forgotten. *)
Theorem clear_makes_no_provider_call wd w :
  process_clicked wd = false ->
  clear_clicked wd = true ->
  file_ids (session_state w) <> [] ->
  calls (run os openai wd w) = calls w.
Proof.
  intros Hp Hc Hne.
  destruct (decide (api_key_input wd = "")) as [Hkey|Hkey].
  { by apply run_clear_effect; [left|..]. }
  destruct (putenv_error os "OPENAI_API_KEY" (api_key_input wd))
    as [e|] eqn:He.
  - unfold run. by rewrite (script_key_refused wd w e Hkey He).
  - by apply run_clear_effect; [right|..].
Qed.

(** X10: after the documents were cleared (by a run whose key line lets
    the pass through), a user action that does not process documents
    makes no provider call either: a question is answered locally until
    a new batch is processed. *)
Theorem question_after_clear_is_local wd1 wd2 w :
  api_key_input wd1 = "" \/ key_accepted os (api_key_input wd1) ->
  process_clicked wd1 = false ->
  clear_clicked wd1 = true ->
  file_ids (session_state w) <> [] ->
  process_clicked wd2 = false ->
  calls (run os openai wd2 (run os openai wd1 w)) = calls w.
Proof.
  intros Hok Hp1 Hc1 Hne Hp2.
  destruct (run_clear_effect wd1 w Hok Hp1 Hc1 Hne) as [Hs Hcalls].
  set (w1 := run os openai wd1 w) in *.
  enough (vector_store_id (session_state (run os openai wd2 w1)) = None /\
          calls (run os openai wd2 w1) = calls w) as [_ H] by done.
  apply (run_invariant
           (fun w' => vector_store_id (session_state w') = None /\
                      calls w' = calls w)); try done.
  - by rewrite Hs.
  - congruence.
  - by intros _ w' _ [Hkb Hw'].
  - intros prompt _ w' [Hkb Hw'].
    destruct (ask_keeps_documents
                (client_for (api_key_input wd2)) prompt w') as [-> _].
    split; [done|].
    destruct (ask_effect (client_for (api_key_input wd2)) prompt w')
      as [_ [[-> _]|(c & vsid & r & _ & Hkb' & _)]]; [done|].
    rewrite Hkb in Hkb'. done.
Qed.

(** ** More on the batch *)

(** X11: the provider calls of a batch whose collection was created are
    the creation and then only uploads with purpose "assistants" and
    attaches to the collection just created (never to an earlier one): at
    most two calls per document, and no chat request. *)
Theorem batch_calls_shape client docs w vsid :
  vector_stores_create openai client (calls w) (collection_name openai w)
    = Ok vsid ->
  vsid <> "" ->
  let w' := snd (process_documents os openai client docs w) in
  exists seg,
    since w w'
      = VectorStoresCreate (collection_name openai w) (Ok vsid) :: seg /\
    Forall (batch_call vsid) seg /\
    length seg <= 2 * length docs /\
    chat_calls (since w w') = [].
Proof.
  intros Hr Hne w'. subst w'.
  destruct (process_documents_created client docs w vsid Hr Hne)
    as (_ & seg & Hsince & _ & _ & _ & HF & HL & _).
  exists seg. rewrite Hsince. repeat split; try done.
  change (chat_calls (VectorStoresCreate (collection_name openai w) (Ok vsid)
                        :: seg)) with (chat_calls seg).
  by eapply batch_call_not_chat.
Qed.


(** X13: after a batch whose collection was created, the handle list has
    at most as many entries as the batch has documents. *)
Theorem handle_count_at_most_batch_size client docs w vsid :
  vector_stores_create openai client (calls w) (collection_name openai w)
    = Ok vsid ->
  vsid <> "" ->
  length (file_ids (session_state
            (snd (process_documents os openai client docs w))))
    <= length docs.
Proof.
  intros Hr Hne.
  destruct (process_documents_created client docs w vsid Hr Hne)
    as (_ & seg & _ & Hup & _ & _ & _ & _ & -> & _).
  cbn. etrans; [apply uploaded_ids_length|].
  rewrite Hup, length_fmap. apply staged_length.
Qed.


(** X15: a batch whose collection did not come to be shows nothing but
    the creation error: when the creation raised, one banner with the
    provider's text; when it returned an empty identifier, nothing at
    all, not even a failure message. *)
Theorem aborted_batch_page client docs w :
  truthy (fst (create_vector_store openai client w)) = None ->
  screen (snd (process_documents os openai client docs w))
    = screen w ++
      match vector_stores_create openai client (calls w)
              (collection_name openai w) with
      | Ok _ => []
      | Raise e => [StError ("Error creating vector store: " +:+ e)]
      end.
Proof.
  intros Hnone. unfold process_documents.
  destruct (create_vector_store openai client w) as [v w1] eqn:Hcreate.
  cbn [fst] in Hnone. rewrite Hnone.
  unfold create_vector_store in Hcreate.
  destruct (vector_stores_create openai client (calls w)
              (collection_name openai w));
    inversion Hcreate; subst; cbn; by rewrite ?app_nil_r.
Qed.

(** X16: the transcript is drawn in order, oldest message first, one chat
    element per message with the role and the content of the message;
    drawing changes neither the session nor the call log. *)
Theorem transcript_drawn_in_order w :
  screen (show_messages w)
    = screen w ++ (bubble <$> messages (session_state w)) /\
  session_state (show_messages w) = session_state w /\
  calls (show_messages w) = calls w.
Proof. by rewrite show_messages_spec. Qed.


(** X19: a click on "Clear All Documents", in a state where the script
    draws the button (the handle list is not empty) and with a key the
    environment takes (or none), ends the run, the pass after
    [st.rerun()] included, in the new session. *)
Theorem clear_click_yields_new_session wd w :
  api_key_input wd = "" \/ key_accepted os (api_key_input wd) ->
  process_clicked wd = false ->
  clear_clicked wd = true ->
  file_ids (session_state w) <> [] ->
  session_state (run os openai wd w) = new_session.
Proof. intros Hok Hp Hc Hne. by apply run_clear_effect. Qed.

(** X20: a key the environment refuses (a NUL in it) ends the run at
    line 23, before any handler: whatever is clicked or asked, the
    session, the environment, the call log and the disk are as they
    were, and the page shows nothing but the exception. *)
Theorem refused_key_ends_run wd w e :
  api_key_input wd <> "" ->
  putenv_error os "OPENAI_API_KEY" (api_key_input wd) = Some e ->
  session_state (run os openai wd w) = session_state w /\
  environ (run os openai wd w) = environ w /\
  calls (run os openai wd w) = calls w /\
  files (run os openai wd w) = files w /\
  screen (run os openai wd w) = [StException e].
Proof.
  intros Hkey He. unfold run.
  by rewrite (script_key_refused wd w e Hkey He).
Qed.


End Properties.

(** X17: the initialisation of lines 11-18 only fills the keys that are
    missing: every value already stored is kept, so a session stored
    under the three keys is read back unchanged on the next run; the
    three keys are present afterwards, other keys are not touched, doing
    it twice changes nothing more, and from the empty dictionary it gives
    the new session. *)
Theorem init_session_state_fills_missing_keys (d : gmap string Value) :
  (forall k v, d !! k = Some v -> init_session_state d !! k = Some v) /\
  (forall k, k ∈ ["messages"; "vector_store_id"; "file_ids"] ->
             is_Some (init_session_state d !! k)) /\
  (forall k, k ∉ ["messages"; "vector_store_id"; "file_ids"] ->
             init_session_state d !! k = d !! k) /\
  init_session_state (init_session_state d) = init_session_state d /\
  (forall s, load_session (init_session_state (store_session s)) = Some s) /\
  load_session (init_session_state ∅) = Some new_session.
Proof.
  split_and!.
  - intros k v Hk. by rewrite init_session_state_lookup, Hk.
  - intros k Hin. rewrite init_session_state_lookup.
    destruct (d !! k); [done|].
    repeat case_decide; try done.
    rewrite !elem_of_cons in Hin. rewrite elem_of_nil in Hin. tauto.
  - intros k Hnot. rewrite init_session_state_lookup.
    destruct (d !! k); [done|].
    rewrite !not_elem_of_cons in Hnot.
    repeat case_decide; subst; tauto.
  - apply map_eq. intros k. rewrite !init_session_state_lookup.
    destruct (d !! k); [done|]. by repeat case_decide.
  - intros [m v f]. unfold load_session, store_session.
    rewrite !init_session_state_lookup. by cbn.
  - unfold load_session. rewrite !init_session_state_lookup. by cbn.
Qed.


(** * The properties on concrete sessions *)



(** C2 on a session that processed one document. *)
Lemma handles_imply_knowledge_base_witness :
  let w := run linux obliging (press_process [report_pdf]) new_world in
  reachable linux obliging w /\
  file_ids (session_state w) <> [] /\
  exists vsid, vector_store_id (session_state w) = Some vsid /\ vsid <> "".
Proof.
  assert (Hreach : reachable linux obliging
                     (run linux obliging (press_process [report_pdf])
                        new_world))
    by apply reachable_run, reachable_new.
  assert (Hne : file_ids (session_state
                  (run linux obliging (press_process [report_pdf])
                     new_world)) <> [])
    by (vm_compute; discriminate).
  split; [exact Hreach|]. split; [exact Hne|].
  exact (handles_imply_knowledge_base linux obliging _ Hreach Hne).
Defined.

(** C2 as an equivalence does not hold: after a batch whose only upload
    is refused, the session holds a collection identifier and lists no
    handle. *)
Lemma knowledge_base_without_handles :
  let w := run linux refuses_upload (press_process [report_pdf]) new_world in
  reachable linux refuses_upload w /\
  vector_store_id (session_state w) = Some "vs_0" /\
  file_ids (session_state w) = [] /\
  ~ (vector_store_id (session_state w) <> None <->
     file_ids (session_state w) <> []).
Proof.
  intros w.
  assert (Hs : session_state w =
               {| messages := []; vector_store_id := Some "vs_0";
                  file_ids := [] |}) by (vm_compute; reflexivity).
  split; [apply reachable_run, reachable_new|].
  rewrite Hs. cbn. repeat split.
  intros [H _]. by apply H.
Qed.



(** The session of the lemma above, in full. *)
Example reprocessed_session :
  session_state (snd (process_documents linux obliging alice [report_pdf]
                        busy_world))
  = {| messages := []; vector_store_id := Some "vs_0"; file_ids := ["file-1"] |}.
Proof. reflexivity. Qed.

(** C4 on a session with a knowledge base and a chat endpoint that times
    out. *)
Lemma failed_chat_keeps_question_witness :
  let w' := ask refuses_chat (Some alice) "What is the budget in Q3?"
              busy_world in
  truthy (vector_store_id (session_state busy_world)) = Some "vs_old" /\
  responses_create refuses_chat alice (calls busy_world) "gpt-4o-mini"
    (chat_request "What is the budget in Q3?") (file_search "vs_old")
    = Raise "Request timed out." /\
  messages (session_state w')
    = messages (session_state busy_world) ++
      [{| role := "user"; content := "What is the budget in Q3?" |}] /\
  screen w'
    = screen busy_world ++
      [ChatMessage "user" (StWrite "What is the budget in Q3?");
       ChatMessage "assistant" (StError ("Error: " +:+ "Request timed out."))].
Proof.
  split; [reflexivity|]. split; [reflexivity|].
  apply (failed_chat_keeps_question refuses_chat alice
           "What is the budget in Q3?" busy_world "vs_old"
           "Request timed out."); reflexivity.
Defined.

(** C5 on a new session, with a client. *)
Lemma no_knowledge_base_no_call_witness :
  let w' := ask obliging (Some alice) "What is the budget in Q3?" new_world in
  vector_store_id (session_state new_world) = None /\
  calls w' = calls new_world /\
  chat_calls (since new_world w') = [] /\
  screen w'
    = screen new_world ++
      [ChatMessage "user" (StWrite "What is the budget in Q3?");
       ChatMessage "assistant" (StWrite missing_documents_reply)].
Proof.
  split; [reflexivity|].
  apply (no_knowledge_base_no_call obliging (Some alice)
           "What is the budget in Q3?" new_world); reflexivity.
Defined.

(** C7 on a provider that can create no collection. *)
Lemma creation_failure_aborts_batch_witness :
  let w' := snd (process_documents linux refuses_collection alice
                   [report_pdf; notes_txt] busy_world) in
  vector_stores_create refuses_collection alice (calls busy_world)
    (collection_name refuses_collection busy_world) = Raise "quota exceeded" /\
  since busy_world w'
    = [VectorStoresCreate (collection_name refuses_collection busy_world)
         (Raise "quota exceeded")] /\
  upload_attempts (since busy_world w') = [] /\
  attach_attempts (since busy_world w') = [] /\
  session_state w' = session_state busy_world /\
  files w' = files busy_world.
Proof.
  split; [reflexivity|].
  apply (creation_failure_aborts_batch linux refuses_collection alice
           [report_pdf; notes_txt] busy_world "quota exceeded"); reflexivity.
Defined.

(** C8 does not hold of the script: a batch of a document whose name has
    254 characters and of [notes.txt], with a valid key and a provider
    that serves every request.  The collection is created; the transient
    file of the first document is refused at line 35, outside the [try]
    of [upload_file_to_openai]; the exception ends the handler, and
    [notes.txt] is never offered to the file endpoint. *)
Theorem batch_stops_at_unstageable_document :
  let batch := process_documents linux obliging alice
                 [long_name_pdf; notes_txt] new_world in
  fst batch = Uncaught "[Errno 36] File name too long" /\
  since new_world (snd batch)
    = [VectorStoresCreate "knowledge_base_0" (Ok "vs_0")] /\
  upload_attempts (since new_world (snd batch)) = [] /\
  vector_store_id (session_state (snd batch)) = Some "vs_0" /\
  file_ids (session_state (snd batch)) = [].
Proof. vm_compute. repeat split. Qed.

(** The same batch in the other order: [notes.txt] is uploaded and
    attached before the run ends. *)
Example batch_stops_after_first_document :
  let batch := process_documents linux obliging alice
                 [notes_txt; long_name_pdf] new_world in
  fst batch = Uncaught "[Errno 36] File name too long" /\
  upload_attempts (since new_world (snd batch)) = [getvalue notes_txt] /\
  file_ids (session_state (snd batch)) = ["file-1"].
Proof. vm_compute. repeat split. Qed.

(** A batch whose first upload is refused by the provider: the second
    document is uploaded and attached all the same. *)
Example batch_after_failed_upload :
  since new_world
    (snd (process_documents linux refuses_first_upload alice
            [report_pdf; notes_txt] new_world))
  = [VectorStoresCreate "knowledge_base_0" (Ok "vs_0");
     FilesCreate ((0, "_report.pdf"), getvalue report_pdf) "assistants"
       (Raise "file too large");
     FilesCreate ((0, "_notes.txt"), getvalue notes_txt) "assistants"
       (Ok "file-2");
     VectorStoresFilesCreate "vs_0" "file-2" (Ok (attach_result "file-2"))].
Proof. vm_compute. reflexivity. Qed.

(** C9 on one document: what happened on the disk. *)
Example transient_file_of_report :
  disk_since new_world
    (snd (upload_file_to_openai linux refuses_upload alice report_pdf
            new_world))
  = [Created (0, "_report.pdf");
     Written (0, "_report.pdf") (getvalue report_pdf);
     Removed (0, "_report.pdf")].
Proof. vm_compute. reflexivity. Qed.

(** The scenario of the specification: upload [report.pdf], then ask. *)
Example upload_then_ask :
  let w := run linux obliging
             (type_prompt "sk-test" "What is the budget in Q3?")
             (run linux obliging (press_process [report_pdf]) new_world) in
  session_state w
  = {| messages := [{| role := "user"; content := "What is the budget in Q3?" |};
                    {| role := "assistant"; content := "The budget in Q3 is 4." |}];
       vector_store_id := Some "vs_0";
       file_ids := ["file-1"] |}.
Proof. vm_compute. reflexivity. Qed.

(** The scenario of the specification: a question before any upload. *)
Example ask_before_upload :
  let w := run linux obliging
             (type_prompt "sk-test" "What is the budget in Q3?")
             new_world in
  messages (session_state w)
    = [{| role := "user"; content := "What is the budget in Q3?" |}] /\
  calls w = [] /\
  screen w = [ChatMessage "user" (StWrite "What is the budget in Q3?");
              ChatMessage "assistant" (StWrite missing_documents_reply)].
Proof. vm_compute. repeat split. Qed.

(** * The further properties on concrete sessions *)

(** X1 on a run without key in which everything is submitted at once. *)
Lemma no_key_no_provider_call_witness :
  let wd := {| api_key_input := ""; uploaded_files := [report_pdf];
               process_clicked := true; clear_clicked := false;
               chat_input := Some "What is the budget in Q3?" |} in
  api_key_input wd = "" /\
  calls (run linux obliging wd busy_world) = calls busy_world.
Proof.
  intros wd. split; [reflexivity|].
  apply (no_key_no_provider_call linux obliging wd busy_world). reflexivity.
Defined.

(** X2 on a click on "Process Documents" with no file chosen. *)
Lemma idle_run_keeps_state_witness :
  (process_clicked (press_process []) = false \/
   uploaded_files (press_process []) = [] \/
   api_key_input (press_process []) = "") /\
  clear_clicked (press_process []) = false /\
  truthy (chat_input (press_process [])) = None /\
  session_state (run linux obliging (press_process []) busy_world)
    = session_state busy_world /\
  calls (run linux obliging (press_process []) busy_world)
    = calls busy_world /\
  files (run linux obliging (press_process []) busy_world)
    = files busy_world.
Proof.
  split; [right; left; reflexivity|].
  split; [reflexivity|]. split; [reflexivity|].
  apply (idle_run_keeps_state linux obliging (press_process []) busy_world);
    [right; left; reflexivity | reflexivity | reflexivity].
Defined.

(** X4 on a question asked in a session that holds one message. *)
Lemma transcript_only_grows_witness :
  let wd := type_prompt "sk-test" "What is the budget in Q3?" in
  process_clicked wd = false /\
  clear_clicked wd = false /\
  messages (session_state busy_world) `prefix_of`
    messages (session_state (run linux obliging wd busy_world)).
Proof.
  intros wd. split; [reflexivity|]. split; [reflexivity|].
  apply (transcript_only_grows linux obliging wd busy_world); reflexivity.
Defined.

(** X5 on a session that processed one document. *)
Lemma collection_id_never_empty_witness :
  let w := run linux obliging (press_process [report_pdf]) new_world in
  reachable linux obliging w /\
  vector_store_id (session_state w) <> Some "" /\
  truthy (vector_store_id (session_state w)) = vector_store_id (session_state w).
Proof.
  intros w.
  assert (Hreach : reachable linux obliging w)
    by apply reachable_run, reachable_new.
  split; [exact Hreach|].
  exact (collection_id_never_empty linux obliging w Hreach).
Defined.

(** X6 on a session that processed one document and asked one question. *)
Lemma transcript_well_formed_witness :
  let w := run linux obliging
             (type_prompt "sk-test" "What is the budget in Q3?")
             (run linux obliging (press_process [report_pdf]) new_world) in
  reachable linux obliging w /\
  answers_follow_questions false (messages (session_state w)) = true.
Proof.
  intros w.
  assert (Hreach : reachable linux obliging w)
    by apply reachable_run, reachable_run, reachable_new.
  split; [exact Hreach|].
  exact (transcript_well_formed linux obliging w Hreach).
Defined.

(** X7 on a question asked in a session with a knowledge base. *)
Lemma answered_question_recorded_witness :
  let wd := type_prompt "sk-test" "What is the budget in Q3?" in
  let w' := run linux obliging wd busy_world in
  api_key_input wd <> "" /\
  key_accepted linux (api_key_input wd) /\
  process_clicked wd = false /\
  clear_clicked wd = false /\
  truthy (chat_input wd) = Some "What is the budget in Q3?" /\
  truthy (vector_store_id (session_state busy_world)) = Some "vs_old" /\
  responses_create obliging {| api_key := api_key_input wd |}
    (calls busy_world) "gpt-4o-mini"
    (chat_request "What is the budget in Q3?") (file_search "vs_old")
    = Ok "The budget in Q3 is 4." /\
  messages (session_state w')
    = messages (session_state busy_world) ++
      [{| role := "user"; content := "What is the budget in Q3?" |};
       {| role := "assistant"; content := "The budget in Q3 is 4." |}] /\
  since busy_world w'
    = [ResponsesCreate "gpt-4o-mini"
         (chat_request "What is the budget in Q3?") (file_search "vs_old")
         (Ok "The budget in Q3 is 4.")] /\
  vector_store_id (session_state w') = vector_store_id (session_state busy_world) /\
  file_ids (session_state w') = file_ids (session_state busy_world).
Proof.
  intros wd w'.
  split; [discriminate|]. do 6 (split; [reflexivity|]).
  apply (answered_question_recorded linux obliging wd busy_world
           "What is the budget in Q3?" "vs_old" "The budget in Q3 is 4.");
    [discriminate | reflexivity..].
Defined.

(** X9 on a click on "Clear All Documents" in a session with one handle. *)
Lemma clear_makes_no_provider_call_witness :
  process_clicked press_clear = false /\
  clear_clicked press_clear = true /\
  file_ids (session_state busy_world) <> [] /\
  calls (run linux obliging press_clear busy_world) = calls busy_world.
Proof.
  split; [reflexivity|]. split; [reflexivity|]. split; [discriminate|].
  apply (clear_makes_no_provider_call linux obliging press_clear busy_world);
    [reflexivity | reflexivity | discriminate].
Defined.

(** X10 on a question asked right after the documents were cleared. *)
Lemma question_after_clear_is_local_witness :
  let wd2 := type_prompt "sk-test" "What is the budget in Q3?" in
  (api_key_input press_clear = "" \/
   key_accepted linux (api_key_input press_clear)) /\
  process_clicked press_clear = false /\
  clear_clicked press_clear = true /\
  file_ids (session_state busy_world) <> [] /\
  process_clicked wd2 = false /\
  calls (run linux obliging wd2 (run linux obliging press_clear busy_world))
    = calls busy_world.
Proof.
  intros wd2.
  split; [right; reflexivity|].
  split; [reflexivity|]. split; [reflexivity|]. split; [discriminate|].
  split; [reflexivity|].
  apply (question_after_clear_is_local linux obliging press_clear wd2
           busy_world);
    [right; reflexivity | reflexivity | reflexivity | discriminate
    | reflexivity].
Defined.

(** X11 on a batch of two documents. *)
Lemma batch_calls_shape_witness :
  let w' := snd (process_documents linux obliging alice
                   [report_pdf; notes_txt] busy_world) in
  vector_stores_create obliging alice (calls busy_world)
    (collection_name obliging busy_world) = Ok "vs_0" /\
  "vs_0" <> "" /\
  exists seg,
    since busy_world w'
      = VectorStoresCreate (collection_name obliging busy_world) (Ok "vs_0")
        :: seg /\
    Forall (batch_call "vs_0") seg /\
    length seg <= 2 * length [report_pdf; notes_txt] /\
    chat_calls (since busy_world w') = [].
Proof.
  split; [reflexivity|]. split; [discriminate|].
  apply (batch_calls_shape linux obliging alice [report_pdf; notes_txt]
           busy_world "vs_0"); [reflexivity | discriminate].
Defined.

(** X13 on a batch of two documents of which the first is refused. *)
Lemma handle_count_at_most_batch_size_witness :
  vector_stores_create refuses_first_upload alice (calls new_world)
    (collection_name refuses_first_upload new_world) = Ok "vs_0" /\
  "vs_0" <> "" /\
  length (file_ids (session_state
            (snd (process_documents linux refuses_first_upload alice
                    [report_pdf; notes_txt] new_world))))
    <= length [report_pdf; notes_txt].
Proof.
  split; [reflexivity|]. split; [discriminate|].
  apply (handle_count_at_most_batch_size linux refuses_first_upload alice
           [report_pdf; notes_txt] new_world "vs_0");
    [reflexivity | discriminate].
Defined.


(** X15 on a creation that returns an empty identifier. *)
Lemma aborted_batch_page_witness :
  truthy (fst (create_vector_store returns_empty_ids alice busy_world)) = None /\
  screen (snd (process_documents linux returns_empty_ids alice [report_pdf]
                 busy_world))
    = screen busy_world ++
      match vector_stores_create returns_empty_ids alice (calls busy_world)
              (collection_name returns_empty_ids busy_world) with
      | Ok _ => []
      | Raise e => [StError ("Error creating vector store: " +:+ e)]
      end.
Proof.
  split; [reflexivity|].
  apply (aborted_batch_page linux returns_empty_ids alice [report_pdf]
           busy_world).
  reflexivity.
Defined.

(** X17 on a dictionary that holds a transcript only. *)
Lemma init_session_state_fills_missing_keys_witness :
  let d : gmap string Value :=
    {[ "messages" := VMessages [{| role := "user"; content := "hello" |}] ]} in
  d !! "messages"
    = Some (VMessages [{| role := "user"; content := "hello" |}]) /\
  init_session_state d !! "messages"
    = Some (VMessages [{| role := "user"; content := "hello" |}]) /\
  is_Some (init_session_state d !! "file_ids").
Proof.
  intros d.
  destruct (init_session_state_fills_missing_keys d)
    as (Hkeep & Hfill & _).
  assert (Hd : d !! "messages"
               = Some (VMessages [{| role := "user"; content := "hello" |}]))
    by reflexivity.
  split; [exact Hd|]. split; [exact (Hkeep _ _ Hd)|].
  apply Hfill. do 2 apply list_elem_of_further. apply list_elem_of_here.
Defined.


(** X19 on a click on "Clear All Documents" in a session that holds a
    knowledge base, a handle and a message. *)
Lemma clear_click_yields_new_session_witness :
  (api_key_input press_clear = "" \/
   key_accepted linux (api_key_input press_clear)) /\
  process_clicked press_clear = false /\
  clear_clicked press_clear = true /\
  file_ids (session_state busy_world) <> [] /\
  session_state (run linux obliging press_clear busy_world) = new_session.
Proof.
  split; [right; reflexivity|].
  split; [reflexivity|]. split; [reflexivity|]. split; [discriminate|].
  apply (clear_click_yields_new_session linux obliging press_clear busy_world);
    [right; reflexivity | reflexivity | reflexivity | discriminate].
Defined.

(** X20 on a click on "Clear All Documents" with a NUL in the key: the
    documents are not cleared. *)
Lemma refused_key_ends_run_witness :
  let wd := {| api_key_input := nul_key; uploaded_files := [];
               process_clicked := false; clear_clicked := true;
               chat_input := None |} in
  api_key_input wd <> "" /\
  putenv_error linux "OPENAI_API_KEY" (api_key_input wd)
    = Some "embedded null byte" /\
  session_state (run linux obliging wd busy_world) = session_state busy_world /\
  environ (run linux obliging wd busy_world) = environ busy_world /\
  calls (run linux obliging wd busy_world) = calls busy_world /\
  files (run linux obliging wd busy_world) = files busy_world /\
  screen (run linux obliging wd busy_world)
    = [StException "embedded null byte"].
Proof.
  intros wd. split; [discriminate|]. split; [reflexivity|].
  apply (refused_key_ends_run linux obliging wd busy_world
           "embedded null byte"); [discriminate | reflexivity].
Defined.

